(** * Automatic run re-execution: eligibility filter, strategy selector,
      retry submitter and orchestrator

    Shallow embedding of
    [python_modules/dagster/dagster/_daemon/auto_run_reexecution/auto_run_reexecution.py].

    Conventions of the embedding.
    - Python integers are [Z]; strings are [string].
    - The interpreter's [int] on strings is a parameter of the development:
      every theorem holds whatever strings it accepts.  [PyInt.int], its
      reading on ASCII text, is used on the sample data only.
    - A run's tags ([Mapping[str, str]]) are a [gmap string string].
    - The [DagsterInstance] is shared mutable state in the source.  Here it
      is threaded through a state-and-exception monad [M]: the state holds
      the persisted run groups, read by [get_run_group], and the
      chronological log of the calls made on the instance.
    - Collaborators whose code is not part of this module (workspace,
      code location, repository, run storage) are records of functions, so
      that every theorem holds for any behaviour they may have, including
      raising.  [report_engine_event] and [create_request_context] are the
      two collaborator calls modelled as never raising.
    - Exceptions are instances of Python's [Exception]. *)

From Stdlib Require Import ZArith Ascii String List Bool Lia.
From stdpp Require Import base option gmap strings list pretty.

Open Scope string_scope.
Open Scope list_scope.
Open Scope Z_scope.

(** ** A reading of [int(str)]

    The functions below take the interpreter's [int] on strings as a
    parameter; [PyInt.int] is the reading used on the sample data: decimal
    literals in ASCII, under the interpreter's default settings. *)

Module PyInt.

(** Characters skipped around the literal: tab, line feed, vertical tab,
    form feed, carriage return and space. *)
Definition is_space (c : ascii) : bool :=
  let n := N_of_ascii c in
  (((9 <=? n) && (n <=? 13)) || (n =? 32))%N.

Definition digit_value (c : ascii) : option Z :=
  let n := N_of_ascii c in
  if ((48 <=? n) && (n <=? 57))%N then Some (Z.of_N n - 48) else None.

Definition is_underscore (c : ascii) : bool := (N_of_ascii c =? 95)%N.

Fixpoint lstrip (cs : list ascii) : list ascii :=
  match cs with
  | c :: cs' => if is_space c then lstrip cs' else cs
  | [] => []
  end.

Definition strip (cs : list ascii) : list ascii :=
  rev (lstrip (rev (lstrip cs))).

(** Decimal digits, with single underscores allowed between digits. *)
Fixpoint digits (cs : list ascii) (acc : Z) (after_digit : bool) : option Z :=
  match cs with
  | [] => if after_digit then Some acc else None
  | c :: cs' =>
      match digit_value c with
      | Some d => digits cs' (10 * acc + d) true
      | None =>
          if is_underscore c && after_digit then digits cs' acc false
          else None
      end
  end.

(** The interpreter's default limit on the number of digits of a literal. *)
Definition max_str_digits : nat := 4300.

Definition count_digits (cs : list ascii) : nat :=
  length (List.filter (fun c => bool_decide (is_Some (digit_value c))) cs).

Definition limited_digits (cs : list ascii) : option Z :=
  if (max_str_digits <? count_digits cs)%nat then None else digits cs 0 false.

(** [int(s)]: [None] stands for [ValueError]. *)
Definition int (s : string) : option Z :=
  match strip (list_ascii_of_string s) with
  | "+"%char :: cs => limited_digits cs
  | "-"%char :: cs => Z.opp <$> limited_digits cs
  | cs => limited_digits cs
  end.

End PyInt.

(** [str(n)] for an integer. *)
Definition str (n : Z) : string := pretty n.

(** ** Data model *)

(** Modelled from the spec: the enumeration [DagsterRunStatus] is declared
    in [dagster._core.storage.dagster_run], which is not part of this module;
    the spec names [FAILURE] and leaves the other statuses open. *)
Inductive DagsterRunStatus :=
| FAILURE
| OTHER_STATUS (status_name : string).

Record CodeLocationOrigin := { location_name : string }.

Record RemoteRepositoryOrigin := {
  code_location_origin : CodeLocationOrigin;
  repository_name : string
}.

Record RemoteJobOrigin := { repository_origin : RemoteRepositoryOrigin }.

Record DagsterRun := {
  run_id : string;
  status : DagsterRunStatus;
  parent_run_id : option string;
  job_name : string;
  op_selection : option (list string);
  asset_selection : option (list string);
  remote_job_origin : option RemoteJobOrigin;
  tags : gmap string string
}.

Record RunRecord := { dagster_run : DagsterRun }.

(** Modelled from the spec: the tag keys are constants of
    [dagster._core.storage.tags], which is not part of this module; section 6
    of the spec lists them. *)
Definition MAX_RETRIES_TAG : string := "max_retries".
Definition RETRY_NUMBER_TAG : string := "retry_number".
Definition RETRY_STRATEGY_TAG : string := "retry_strategy".
Definition RETRY_ON_ASSET_OR_OP_FAILURE_TAG : string := "retry_on_asset_or_op_failure".
Definition RUN_FAILURE_REASON_TAG : string := "run_failure_reason".
Definition AUTO_RETRY_RUN_ID_TAG : string := "auto_retry_run_id".

(** Modelled from the spec: [RunFailureReason.STEP_FAILURE.value] comes from
    [dagster._core.events], which is not part of this module; the spec gives
    the sentinel as "step failure". *)
Definition STEP_FAILURE_value : string := "step failure".

(** Modelled from the spec: [ReexecutionStrategy] is declared in
    [dagster._core.execution.plan.resume_retry], which is not part of this
    module; the spec describes a closed set of variants, restart from the
    point of failure and full re-run. *)
Inductive ReexecutionStrategy := FROM_FAILURE | ALL_STEPS.

(** [ReexecutionStrategy.__members__]: member names to members. *)
Definition ReexecutionStrategy_members : list (string * ReexecutionStrategy) :=
  [("FROM_FAILURE", FROM_FAILURE); ("ALL_STEPS", ALL_STEPS)].

Definition members_lookup (raw : string) : option ReexecutionStrategy :=
  snd <$> find (fun entry => String.eqb raw (fst entry)) ReexecutionStrategy_members.

Definition DEFAULT_REEXECUTION_POLICY : ReexecutionStrategy := FROM_FAILURE.

(** ** Exceptions and results *)

Record PyException := { exc_type : string; exc_message : string }.

Inductive Result (A : Type) :=
| Return (a : A)
| Raise (e : PyException).
Arguments Return {A} a.
Arguments Raise {A} e.

(** [DaemonErrorCapture.on_exception]: the structured error detail. *)
Record SerializableErrorInfo := { captured : PyException }.

Definition on_exception (exc_info : PyException) : SerializableErrorInfo :=
  {| captured := exc_info |}.

(** ** Workspace collaborators *)

Record JobSubsetSelector := {
  sel_location_name : string;
  sel_repository_name : string;
  sel_job_name : string;
  sel_op_selection : option (list string);
  sel_asset_selection : option (list string)
}.

Record RemoteJob := { handle_of : JobSubsetSelector; handle_id : string }.

Record RemoteRepository := { has_job : string -> bool }.

Record CodeLocation := {
  name : string;
  has_repository : string -> bool;
  get_repository : string -> Result RemoteRepository;
  get_job : JobSubsetSelector -> Result RemoteJob
}.

Record BaseWorkspaceRequestContext := {
  get_code_location : string -> Result CodeLocation
}.

(** ** The instance: persisted state and call log *)

Inductive MetadataValue := MetadataValue_dagster_run (id : string).

Inductive EngineEventData :=
| NoEventData
| EngineEventData_metadata (entries : list (string * MetadataValue))
| EngineEventData_error (error : SerializableErrorInfo).

Record ReexecutionRequest := {
  req_parent_run : DagsterRun;
  req_code_location : CodeLocation;
  req_remote_job : RemoteJob;
  req_strategy : ReexecutionStrategy;
  req_extra_tags : gmap string string;
  req_use_parent_run_tags : bool
}.

Inductive InstanceCall :=
| ReportEngineEvent (message : string) (run : DagsterRun) (data : EngineEventData)
| CreateReexecutedRun (request : ReexecutionRequest)
| SubmitRun (id : string)
| AddRunTags (id : string) (new_tags : gmap string string).

(** What [get_run_group] answers for each run id: [None], or the root id
    and the members of the group. *)
Definition RunGroups : Type := string -> option (string * list DagsterRun).

Record DagsterInstance := {
  run_retries_max_retries : Z;
  run_retries_retry_on_asset_or_op_failure : bool;
  run_groups : RunGroups;
  calls : list InstanceCall
}.

(** Behaviour of the run storage behind the instance's mutating methods:
    each may change the persisted groups and may raise. *)
Record RunStorage := {
  storage_create_reexecuted_run :
    ReexecutionRequest -> RunGroups -> Result DagsterRun * RunGroups;
  storage_submit_run : string -> RunGroups -> Result unit * RunGroups;
  storage_add_run_tags :
    string -> gmap string string -> RunGroups -> Result unit * RunGroups
}.

Record IWorkspaceProcessContext := {
  create_request_context : BaseWorkspaceRequestContext;
  run_storage : RunStorage
}.

(** ** State-and-exception monad over the instance *)

Definition M (A : Type) : Type := DagsterInstance -> Result A * DagsterInstance.

Definition ret {A} (a : A) : M A := fun inst => (Return a, inst).

Definition bind {A B} (m : M A) (k : A -> M B) : M B :=
  fun inst =>
    match m inst with
    | (Return a, inst') => k a inst'
    | (Raise e, inst') => (Raise e, inst')
    end.

Notation "x <- m ;; k" := (bind m (fun x => k))
  (at level 100, m at next level, right associativity).
Notation "m ;;; k" := (bind m (fun _ => k))
  (at level 100, right associativity).

(** A call on a workspace collaborator: its outcome, the instance untouched. *)
Definition lift {A} (r : Result A) : M A := fun inst => (r, inst).

(** [try: body except Exception: handler]. *)
Definition try_except (body : M unit) (handler : PyException -> M unit) : M unit :=
  fun inst =>
    match body inst with
    | (Return u, inst') => (Return u, inst')
    | (Raise e, inst') => handler e inst'
    end.

Definition log_call (c : InstanceCall) (inst : DagsterInstance) : DagsterInstance :=
  {| run_retries_max_retries := run_retries_max_retries inst;
     run_retries_retry_on_asset_or_op_failure :=
       run_retries_retry_on_asset_or_op_failure inst;
     run_groups := run_groups inst;
     calls := calls inst ++ [c] |}.

Definition set_run_groups (g : RunGroups) (inst : DagsterInstance) : DagsterInstance :=
  {| run_retries_max_retries := run_retries_max_retries inst;
     run_retries_retry_on_asset_or_op_failure :=
       run_retries_retry_on_asset_or_op_failure inst;
     run_groups := g;
     calls := calls inst |}.

(** *** Instance methods *)

Definition report_engine_event
    (message : string) (run : DagsterRun) (data : EngineEventData) : M unit :=
  fun inst => (Return tt, log_call (ReportEngineEvent message run data) inst).

Definition get_run_group (id : string) : M (option (string * list DagsterRun)) :=
  fun inst => (Return (run_groups inst id), inst).

Definition storage_call {A} (c : InstanceCall)
    (effect : RunGroups -> Result A * RunGroups) : M A :=
  fun inst =>
    let logged := log_call c inst in
    let (outcome, groups) := effect (run_groups logged) in
    (outcome, set_run_groups groups logged).

Definition create_reexecuted_run (st : RunStorage) (request : ReexecutionRequest)
    : M DagsterRun :=
  storage_call (CreateReexecutedRun request) (storage_create_reexecuted_run st request).

Definition submit_run (st : RunStorage) (id : string) : M unit :=
  storage_call (SubmitRun id) (storage_submit_run st id).

Definition add_run_tags (st : RunStorage) (id : string) (new_tags : gmap string string)
    : M unit :=
  storage_call (AddRunTags id new_tags) (storage_add_run_tags st id new_tags).

(** ** Sample runs, instances and collaborators

    Concrete data on which the theorems below are instantiated. *)

Module Samples.

(** A reading of boolean-ish tag strings: everything but "false". *)
Definition read_bool (raw : string) : bool := negb (String.eqb raw "false").

Definition make_run (id : string) (st : DagsterRunStatus) (parent : option string)
    (origin : option RemoteJobOrigin) (run_tags : gmap string string) : DagsterRun :=
  {| run_id := id; status := st; parent_run_id := parent; job_name := "nightly";
     op_selection := None; asset_selection := None;
     remote_job_origin := origin; tags := run_tags |}.

Definition make_instance (default_max : Z) (default_gate : bool)
    (groups : RunGroups) : DagsterInstance :=
  {| run_retries_max_retries := default_max;
     run_retries_retry_on_asset_or_op_failure := default_gate;
     run_groups := groups;
     calls := [] |}.

Definition no_groups : RunGroups := fun _ => None.

(** Run A of the spec's scenario: failed, [max_retries=2]. *)
Definition run_A : DagsterRun :=
  make_run "A" FAILURE None None {[ MAX_RETRIES_TAG := "2" ]}.

(** A's retry. *)
Definition run_B : DagsterRun :=
  make_run "B" FAILURE (Some "A") None
    {[ MAX_RETRIES_TAG := "2"; RETRY_NUMBER_TAG := "1" ]}.

Definition run_succeeded : DagsterRun :=
  make_run "S" (OTHER_STATUS "SUCCESS") None None {[ MAX_RETRIES_TAG := "2" ]}.

(** The group of A once B exists. *)
Definition groups_A_B : RunGroups :=
  fun id =>
    if String.eqb id "A" || String.eqb id "B" then Some ("A", [run_A; run_B])
    else None.

(** A group holding A alone. *)
Definition groups_A : RunGroups :=
  fun id => if String.eqb id "A" then Some ("A", [run_A]) else None.

Definition fresh_instance : DagsterInstance := make_instance 0 true no_groups.

(** A root run with budget 1 and its retry D; the group is full. *)
Definition run_C : DagsterRun :=
  make_run "C" FAILURE None None {[ MAX_RETRIES_TAG := "1" ]}.

Definition run_D : DagsterRun :=
  make_run "D" FAILURE (Some "C") None
    {[ MAX_RETRIES_TAG := "1"; RETRY_NUMBER_TAG := "1" ]}.

Definition groups_C_D : RunGroups :=
  fun id =>
    if String.eqb id "C" || String.eqb id "D" then Some ("C", [run_C; run_D])
    else None.

(** Runs with a malformed budget, without a budget tag, with budget 0. *)
Definition run_malformed : DagsterRun :=
  make_run "M" FAILURE None None {[ MAX_RETRIES_TAG := "two" ]}.

Definition run_untagged : DagsterRun := make_run "U" FAILURE None None ∅.

Definition run_zero : DagsterRun :=
  make_run "Z" FAILURE None None {[ MAX_RETRIES_TAG := "0" ]}.

(** Runs that failed on a step, with the gate tag closed and open. *)
Definition run_step_closed : DagsterRun :=
  make_run "G" FAILURE None None
    {[ MAX_RETRIES_TAG := "2"; RUN_FAILURE_REASON_TAG := STEP_FAILURE_value;
       RETRY_ON_ASSET_OR_OP_FAILURE_TAG := "false" ]}.

Definition run_step_open : DagsterRun :=
  make_run "H" FAILURE None None
    {[ MAX_RETRIES_TAG := "2"; RUN_FAILURE_REASON_TAG := STEP_FAILURE_value;
       RETRY_ON_ASSET_OR_OP_FAILURE_TAG := "true" ]}.

(** A after its retry was submitted and the retry run then deleted: the
    lineage tag is there, the group holds A alone again. *)
Definition run_A_tagged : DagsterRun :=
  make_run "A" FAILURE None None
    {[ MAX_RETRIES_TAG := "2"; AUTO_RETRY_RUN_ID_TAG := "B" ]}.

Definition groups_A_tagged : RunGroups :=
  fun id => if String.eqb id "A" then Some ("A", [run_A_tagged]) else None.

(** A workspace with one location, "prod", holding repository "repo"
    with the job "nightly". *)
Definition origin_prod : RemoteJobOrigin :=
  {| repository_origin :=
       {| code_location_origin := {| location_name := "prod" |};
          repository_name := "repo" |} |}.

Definition KeyError (key : string) : PyException :=
  {| exc_type := "KeyError"; exc_message := key |}.

Definition location_not_found (location : string) : PyException :=
  {| exc_type := "DagsterCodeLocationNotFoundError"; exc_message := location |}.

Definition repo_prod : RemoteRepository :=
  {| has_job := fun job => String.eqb job "nightly" |}.

Definition location_prod : CodeLocation :=
  {| name := "prod";
     has_repository := fun repo => String.eqb repo "repo";
     get_repository :=
       fun repo => if String.eqb repo "repo" then Return repo_prod
                   else Raise (KeyError repo);
     get_job := fun selector =>
       Return {| handle_of := selector; handle_id := sel_job_name selector |} |}.

Definition workspace_prod : BaseWorkspaceRequestContext :=
  {| get_code_location :=
       fun location => if String.eqb location "prod" then Return location_prod
                       else Raise (location_not_found location) |}.

(** A workspace from which every location is gone. *)
Definition workspace_empty : BaseWorkspaceRequestContext :=
  {| get_code_location := fun location => Raise (location_not_found location) |}.

(** A storage that creates the retry as a child of its parent, named
    after it, and puts it in the parent's group. *)
Definition retry_of (request : ReexecutionRequest) : DagsterRun :=
  let parent := req_parent_run request in
  {| run_id := run_id parent +:+ "-retry";
     status := OTHER_STATUS "NOT_STARTED";
     parent_run_id := Some (run_id parent);
     job_name := job_name parent;
     op_selection := op_selection parent;
     asset_selection := asset_selection parent;
     remote_job_origin := remote_job_origin parent;
     tags := req_extra_tags request ∪ tags parent |}.

Definition add_to_group (request : ReexecutionRequest) (groups : RunGroups)
    : RunGroups :=
  let parent := req_parent_run request in
  let (root, members) :=
    match groups (run_id parent) with
    | Some group => group
    | None => (run_id parent, [parent])
    end in
  fun id =>
    if existsb (String.eqb id) (map run_id (members ++ [retry_of request]))
    then Some (root, members ++ [retry_of request])
    else groups id.

Definition storage_ok : RunStorage :=
  {| storage_create_reexecuted_run :=
       fun request groups => (Return (retry_of request), add_to_group request groups);
     storage_submit_run := fun _ groups => (Return tt, groups);
     storage_add_run_tags := fun _ _ groups => (Return tt, groups) |}.

Definition queue_full : PyException :=
  {| exc_type := "DagsterInvariantViolationError"; exc_message := "queue full" |}.

(** The same storage with a submission that always raises. *)
Definition storage_submit_raises : RunStorage :=
  {| storage_create_reexecuted_run := storage_create_reexecuted_run storage_ok;
     storage_submit_run := fun _ groups => (Raise queue_full, groups);
     storage_add_run_tags := storage_add_run_tags storage_ok |}.

Definition context_prod : IWorkspaceProcessContext :=
  {| create_request_context := workspace_prod; run_storage := storage_ok |}.

Definition context_empty : IWorkspaceProcessContext :=
  {| create_request_context := workspace_empty; run_storage := storage_ok |}.

Definition context_submit_raises : IWorkspaceProcessContext :=
  {| create_request_context := workspace_prod;
     run_storage := storage_submit_raises |}.

(** Failed runs of "nightly" in "prod"; the second asks for a strategy
    that does not exist, the third for a full re-run. *)
Definition run_P : DagsterRun :=
  make_run "P" FAILURE None (Some origin_prod) {[ MAX_RETRIES_TAG := "2" ]}.

Definition run_bogus : DagsterRun :=
  make_run "Q" FAILURE None (Some origin_prod)
    {[ MAX_RETRIES_TAG := "2"; RETRY_STRATEGY_TAG := "BOGUS" ]}.

Definition run_all_steps : DagsterRun :=
  make_run "R" FAILURE None (Some origin_prod)
    {[ MAX_RETRIES_TAG := "2"; RETRY_STRATEGY_TAG := "ALL_STEPS" ]}.

(** Runs whose repository, or whose job, is gone from "prod". *)
Definition run_repo_gone : DagsterRun :=
  make_run "V" FAILURE None
    (Some {| repository_origin :=
               {| code_location_origin := {| location_name := "prod" |};
                  repository_name := "old_repo" |} |})
    {[ MAX_RETRIES_TAG := "2" ]}.

Definition run_job_gone : DagsterRun :=
  {| run_id := "W"; status := FAILURE; parent_run_id := None;
     job_name := "old_job"; op_selection := None; asset_selection := None;
     remote_job_origin := Some origin_prod;
     tags := {[ MAX_RETRIES_TAG := "2" ]} |}.

End Samples.

(** ** The module's functions *)

Section Interpreter.

(** Python's [int] on a string: the integer, or [None] for [ValueError]. *)
Variable int : string -> option Z.

Section AutoRunReexecution.

(** How a present boolean-ish tag value reads as a boolean. *)
Variable boolean_of_tag_string : string -> bool.

(** Modelled from the spec: [get_boolean_tag_value] is defined in
    [dagster._utils.tags], which is not part of this module; the spec has
    the run's own tag value if present, else the default passed in. *)
Definition get_boolean_tag_value
    (tag_value : option string) (default_value : bool) : bool :=
  match tag_value with
  | None => default_value
  | Some raw => boolean_of_tag_string raw
  end.

(** [run.run_id == run_.parent_run_id], the right side an [Optional[str]]. *)
Definition is_parent_of (run run_ : DagsterRun) : bool :=
  match parent_run_id run_ with
  | Some parent => String.eqb (run_id run) parent
  | None => false
  end.

(** *** [filter_runs_to_should_retry] *)

(** The inner [get_retry_number], from the test [max_retries == 0] on. *)
Definition get_retry_number_with (max_retries : Z) (run : DagsterRun)
    : M (option Z) :=
  if max_retries =? 0 then ret None
  else
    run_group <- get_run_group (run_id run) ;;
    match run_group with
    | Some (_, run_group_list) =>
        if Z.of_nat (length run_group_list) >=? max_retries + 1 then ret None
        else if existsb (is_parent_of run) run_group_list then ret None
        else ret (Some (Z.of_nat (length run_group_list)))
    | None => ret (Some 1)
    end.

Definition parse_error_message : string :=
  "Error parsing int from tag " +:+ MAX_RETRIES_TAG +:+ ", won't retry the run.".

Definition get_retry_number (default_max_retries : Z) (run : DagsterRun)
    : M (option Z) :=
  match status run with
  | FAILURE =>
      match tags run !! MAX_RETRIES_TAG with
      | None => get_retry_number_with default_max_retries run
      | Some raw_max_retries_tag =>
          match int raw_max_retries_tag with
          | Some max_retries => get_retry_number_with max_retries run
          | None =>
              report_engine_event parse_error_message run NoEventData ;;;
              ret None
          end
      end
  | _ => ret None
  end.

Definition not_retrying_message : string :=
  "Not retrying run since it failed due to an asset or op failure and run retries "
  +:+ "are configured with retry_on_asset_or_op_failure set to false.".

(** The test guarding the report in the loop body. *)
Definition blocked_by_step_failure (run : DagsterRun) (gate : bool) : bool :=
  bool_decide (tags run !! RUN_FAILURE_REASON_TAG = Some STEP_FAILURE_value)
  && negb gate.

(** The state a suspended filter generator keeps: what it captured when it
    started and the runs it has not looked at yet. *)
Record FilterState := {
  default_max_retries : Z;
  default_retry_on_asset_or_op_failure : bool;
  runs_left : list DagsterRun
}.

(** The [for] loop of the filter, run to the end with every yielded pair
    collected: [list(filter_runs_to_should_retry(...))] after the
    defaults have been captured. *)
Fixpoint filter_loop (default_max : Z) (default_gate : bool)
    (runs : list DagsterRun) : M (list (DagsterRun * Z)) :=
  match runs with
  | [] => ret []
  | run :: rest =>
      retry_number <- get_retry_number default_max run ;;
      let retry_on_asset_or_op_failure :=
        get_boolean_tag_value (tags run !! RETRY_ON_ASSET_OR_OP_FAILURE_TAG)
          default_gate in
      match retry_number with
      | Some n =>
          if blocked_by_step_failure run retry_on_asset_or_op_failure then
            report_engine_event not_retrying_message run NoEventData ;;;
            filter_loop default_max default_gate rest
          else
            yielded <- filter_loop default_max default_gate rest ;;
            ret ((run, n) :: yielded)
      | None => filter_loop default_max default_gate rest
      end
  end.

Definition filter_runs_to_should_retry
    (runs : list DagsterRun) (default_max_retries : Z)
    : M (list (DagsterRun * Z)) :=
  fun instance =>
    filter_loop default_max_retries
      (run_retries_retry_on_asset_or_op_failure instance) runs instance.

(** One [next()] on the filter generator: the loop up to its next
    [yield], or to its end ([None], for [StopIteration]). *)
Fixpoint filter_resume (default_max : Z) (default_gate : bool)
    (runs : list DagsterRun) : M (option (DagsterRun * Z * FilterState)) :=
  match runs with
  | [] => ret None
  | run :: rest =>
      retry_number <- get_retry_number default_max run ;;
      let retry_on_asset_or_op_failure :=
        get_boolean_tag_value (tags run !! RETRY_ON_ASSET_OR_OP_FAILURE_TAG)
          default_gate in
      match retry_number with
      | Some n =>
          if blocked_by_step_failure run retry_on_asset_or_op_failure then
            report_engine_event not_retrying_message run NoEventData ;;;
            filter_resume default_max default_gate rest
          else
            ret (Some (run, n,
                       {| default_max_retries := default_max;
                          default_retry_on_asset_or_op_failure := default_gate;
                          runs_left := rest |}))
      | None => filter_resume default_max default_gate rest
      end
  end.

Definition filter_next (st : FilterState)
    : M (option (DagsterRun * Z * FilterState)) :=
  filter_resume (default_max_retries st)
    (default_retry_on_asset_or_op_failure st) (runs_left st).

(** *** [get_reexecution_strategy] *)

Definition strategy_error_message (raw_strategy_tag : string) : string :=
  "Error parsing retry strategy from tag '" +:+ RETRY_STRATEGY_TAG
    +:+ ": " +:+ raw_strategy_tag +:+ "'".

Definition get_reexecution_strategy (run : DagsterRun)
    : M (option ReexecutionStrategy) :=
  match tags run !! RETRY_STRATEGY_TAG with
  | None => ret None
  | Some raw_strategy_tag =>
      match members_lookup raw_strategy_tag with
      | None =>
          report_engine_event (strategy_error_message raw_strategy_tag)
            run NoEventData ;;;
          ret None
      | Some strategy => ret (Some strategy)
      end
  end.

(** [selected or DEFAULT_REEXECUTION_POLICY]: enum members are truthy. *)
Definition or_default (selected : option ReexecutionStrategy)
    : ReexecutionStrategy :=
  match selected with
  | Some strategy => strategy
  | None => DEFAULT_REEXECUTION_POLICY
  end.

(** *** [retry_run] *)

Definition retry_run (failed_run : DagsterRun) (retry_number : Z)
    (workspace_context : IWorkspaceProcessContext) : M unit :=
  let instance := run_storage workspace_context in
  let tags_ : gmap string string := {[ RETRY_NUMBER_TAG := str retry_number ]} in
  let workspace := create_request_context workspace_context in
  match remote_job_origin failed_run with
  | None =>
      report_engine_event
        "Run does not have an external job origin, unable to retry the run."
        failed_run NoEventData
  | Some job_origin =>
      let origin := repository_origin job_origin in
      code_location <-
        lift (get_code_location workspace
                (location_name (code_location_origin origin))) ;;
      let repo_name := repository_name origin in
      if negb (has_repository code_location repo_name) then
        report_engine_event
          ("Could not find repository " +:+ repo_name +:+ " in location "
             +:+ name code_location +:+ ", unable to"
             +:+ " retry the run. It was likely renamed or deleted.")
          failed_run NoEventData
      else
        repo <- lift (get_repository code_location repo_name) ;;
        if negb (has_job repo (job_name failed_run)) then
          report_engine_event
            ("Could not find job " +:+ job_name failed_run +:+ " in repository "
               +:+ repo_name +:+ ", unable"
               +:+ " to retry the run. It was likely renamed or deleted.")
            failed_run NoEventData
        else
          remote_job <-
            lift (get_job code_location
                    {| sel_location_name :=
                         location_name (code_location_origin origin);
                       sel_repository_name := repo_name;
                       sel_job_name := job_name failed_run;
                       sel_op_selection := op_selection failed_run;
                       sel_asset_selection := asset_selection failed_run |}) ;;
          selected <- get_reexecution_strategy failed_run ;;
          let strategy := or_default selected in
          new_run <-
            create_reexecuted_run instance
              {| req_parent_run := failed_run;
                 req_code_location := code_location;
                 req_remote_job := remote_job;
                 req_strategy := strategy;
                 req_extra_tags := tags_;
                 req_use_parent_run_tags := true |} ;;
          report_engine_event "Retrying the run" failed_run
            (EngineEventData_metadata
               [("new run", MetadataValue_dagster_run (run_id new_run))]) ;;;
          report_engine_event "Launched as an automatic retry" new_run
            (EngineEventData_metadata
               [("failed run", MetadataValue_dagster_run (run_id failed_run))]) ;;;
          submit_run instance (run_id new_run) ;;;
          add_run_tags instance (run_id failed_run)
            {[ AUTO_RETRY_RUN_ID_TAG := run_id new_run ]}
  end.

(** *** [consume_new_runs_for_automatic_reexecution] *)

(** The generator object: not started yet, suspended at its [yield] with
    the pair it is about to submit, or exhausted. *)
Inductive Generator :=
| Created (run_records : list RunRecord)
| Suspended (run : DagsterRun) (retry_number : Z) (rest : FilterState)
| Exhausted.

Inductive Signal := Yielded | StopIteration.

(** The body of the [for] loop after the [yield]. *)
Definition submit_isolated (workspace_process_context : IWorkspaceProcessContext)
    (run : DagsterRun) (retry_number : Z) : M unit :=
  try_except
    (retry_run run retry_number workspace_process_context)
    (fun exc_info =>
       let error_info := on_exception exc_info in
       report_engine_event "Failed to retry run" run
         (EngineEventData_error error_info)).

(** Pull the next pair from the filter and suspend at the [yield]. *)
Definition advance (st : FilterState) : M (Signal * Generator) :=
  candidate <- filter_next st ;;
  match candidate with
  | Some (run, retry_number, st') => ret (Yielded, Suspended run retry_number st')
  | None => ret (StopIteration, Exhausted)
  end.

(** One [next()] on the generator. *)
Definition next (workspace_process_context : IWorkspaceProcessContext)
    (g : Generator) : M (Signal * Generator) :=
  match g with
  | Created run_records =>
      fun instance =>
        advance
          {| default_max_retries := run_retries_max_retries instance;
             default_retry_on_asset_or_op_failure :=
               run_retries_retry_on_asset_or_op_failure instance;
             runs_left := map dagster_run run_records |} instance
  | Suspended run retry_number st =>
      submit_isolated workspace_process_context run retry_number ;;;
      advance st
  | Exhausted => ret (StopIteration, Exhausted)
  end.

Definition consume_new_runs_for_automatic_reexecution
    (run_records : list RunRecord) : Generator :=
  Created run_records.

(** A consumer that pulls until the generator stops, at most [fuel]
    times; it returns the number of checkpoints it was handed, or [None]
    when [fuel] ran out first. *)
Fixpoint exhaust (workspace_process_context : IWorkspaceProcessContext)
    (fuel : nat) (g : Generator) : M (option nat) :=
  match fuel with
  | O => ret None
  | S fuel' =>
      step <- next workspace_process_context g ;;
      match step with
      | (Yielded, g') =>
          checkpoints <- exhaust workspace_process_context fuel' g' ;;
          ret (S <$> checkpoints)
      | (StopIteration, _) => ret (Some O)
      end
  end.

(** The generator as a consumer that pulls it to the end sees it: the
    [for] loop of the orchestrator over the [for] loop of the filter, read
    in one piece.  Over the runs in order, the filter decides on the
    instance as it is by then; each pair it yields is one checkpoint,
    followed by the submission inside the boundary, and the loop goes on
    with the runs that are left.  The result is the number of
    checkpoints. *)
Fixpoint sweep (workspace_process_context : IWorkspaceProcessContext)
    (default_max : Z) (default_gate : bool) (runs : list DagsterRun) : M nat :=
  match runs with
  | [] => ret O
  | run :: rest =>
      retry_number <- get_retry_number default_max run ;;
      let retry_on_asset_or_op_failure :=
        get_boolean_tag_value (tags run !! RETRY_ON_ASSET_OR_OP_FAILURE_TAG)
          default_gate in
      match retry_number with
      | Some n =>
          if blocked_by_step_failure run retry_on_asset_or_op_failure then
            report_engine_event not_retrying_message run NoEventData ;;;
            sweep workspace_process_context default_max default_gate rest
          else
            submit_isolated workspace_process_context run n ;;;
            checkpoints <-
              sweep workspace_process_context default_max default_gate rest ;;
            ret (S checkpoints)
      | None => sweep workspace_process_context default_max default_gate rest
      end
  end.

End AutoRunReexecution.

(** ** What the filter computes, read off the persisted groups

    The definitions below follow the words of the spec (section 4.1); the
    lemmas after them show that the code computes exactly this. *)

(** Step 2 of the spec: the effective max retries, [None] on a parse failure. *)
Definition effective_max_retries (default_max : Z) (run : DagsterRun) : option Z :=
  match tags run !! MAX_RETRIES_TAG with
  | None => Some default_max
  | Some raw => int raw
  end.

(** The already-retried guard: some member has this run as its parent. *)
Definition has_child (run : DagsterRun) (members : list DagsterRun) : Prop :=
  exists run_, In run_ members /\ parent_run_id run_ = Some (run_id run).

(** Step 3 of the spec, for a resolved budget. *)
Definition generation_for (groups : RunGroups) (max_retries : Z) (run : DagsterRun)
    : option Z :=
  if max_retries =? 0 then None
  else
    match groups (run_id run) with
    | Some (_, members) =>
        if Z.of_nat (length members) >=? max_retries + 1 then None
        else if existsb (is_parent_of run) members then None
        else Some (Z.of_nat (length members))
    | None => Some 1
    end.

(** Steps 1 to 3 of the spec. *)
Definition generation (groups : RunGroups) (default_max : Z) (run : DagsterRun)
    : option Z :=
  match status run with
  | FAILURE =>
      match effective_max_retries default_max run with
      | Some max_retries => generation_for groups max_retries run
      | None => None
      end
  | _ => None
  end.

(** The diagnostic of step 2, when it is due. *)
Definition parse_diagnostics (run : DagsterRun) : list InstanceCall :=
  match status run with
  | FAILURE =>
      match effective_max_retries 0 run with
      | None =>
          [ReportEngineEvent parse_error_message run NoEventData]
      | Some _ => []
      end
  | _ => []
  end.

(** The run with its tags replaced, everything else kept. *)
Definition with_tags (run : DagsterRun) (new_tags : gmap string string) : DagsterRun :=
  {| run_id := run_id run; status := status run;
     parent_run_id := parent_run_id run; job_name := job_name run;
     op_selection := op_selection run; asset_selection := asset_selection run;
     remote_job_origin := remote_job_origin run; tags := new_tags |}.

(** Two tag sets that differ at most at the lineage pointer. *)
Definition same_but_lineage_pointer (t t' : gmap string string) : Prop :=
  forall key, key <> AUTO_RETRY_RUN_ID_TAG -> t' !! key = t !! key.

(** The instance after [evs] more calls that leave the storage alone. *)
Definition logged (evs : list InstanceCall) (inst inst' : DagsterInstance) : Prop :=
  run_retries_max_retries inst' = run_retries_max_retries inst
  /\ run_retries_retry_on_asset_or_op_failure inst'
     = run_retries_retry_on_asset_or_op_failure inst
  /\ run_groups inst' = run_groups inst
  /\ calls inst' = calls inst ++ evs.

(** How many runs a generator has not looked at yet. *)
Definition runs_ahead (g : Generator) : nat :=
  match g with
  | Created run_records => length run_records
  | Suspended _ _ st => length (runs_left st)
  | Exhausted => O
  end.

(** Every call on the instance keeps what was logged before it. *)
Definition extends_calls (inst inst' : DagsterInstance) : Prop :=
  exists later, calls inst' = calls inst ++ later.

Definition is_report (c : InstanceCall) : Prop :=
  match c with
  | ReportEngineEvent _ _ _ => True
  | _ => False
  end.

Section FilterFacts.

Variable boolean_of_tag_string : string -> bool.

Abbreviation gate_of := (get_boolean_tag_value boolean_of_tag_string).

(** Steps 4 to 6 of the spec: the pair the filter yields for a run. *)
Definition eligible (groups : RunGroups) (default_max : Z) (default_gate : bool)
    (run : DagsterRun) : option (DagsterRun * Z) :=
  match generation groups default_max run with
  | Some n =>
      if blocked_by_step_failure run
           (gate_of (tags run !! RETRY_ON_ASSET_OR_OP_FAILURE_TAG) default_gate)
      then None else Some (run, n)
  | None => None
  end.

(** The diagnostics the filter reports for a run. *)
Definition diagnostics (groups : RunGroups) (default_max : Z) (default_gate : bool)
    (run : DagsterRun) : list InstanceCall :=
  parse_diagnostics run ++
  match generation groups default_max run with
  | Some n =>
      if blocked_by_step_failure run
           (gate_of (tags run !! RETRY_ON_ASSET_OR_OP_FAILURE_TAG) default_gate)
      then [ReportEngineEvent not_retrying_message run NoEventData] else []
  | None => []
  end.

End FilterFacts.

(** ** Lemmas on the monad and the log *)

Lemma logged_nil inst : logged [] inst inst.
Proof. unfold logged. rewrite app_nil_r. auto. Qed.

Lemma logged_app evs1 evs2 inst1 inst2 inst3 :
  logged evs1 inst1 inst2 -> logged evs2 inst2 inst3 ->
  logged (evs1 ++ evs2) inst1 inst3.
Proof.
  unfold logged. intros (A1 & A2 & A3 & A4) (B1 & B2 & B3 & B4).
  rewrite B1, B2, B3, B4, A1, A2, A3, A4, app_assoc. auto.
Qed.

Lemma logged_log_call c inst : logged [c] inst (log_call c inst).
Proof. unfold logged, log_call. simpl. auto. Qed.

Lemma report_engine_event_logged message run data inst :
  report_engine_event message run data inst
  = (Return tt, log_call (ReportEngineEvent message run data) inst).
Proof. reflexivity. Qed.

Lemma bind_Return {A B} (m : M A) (k : A -> M B) inst a inst' :
  m inst = (Return a, inst') -> bind m k inst = k a inst'.
Proof. intros H. unfold bind. rewrite H. reflexivity. Qed.

Lemma bind_Raise {A B} (m : M A) (k : A -> M B) inst e inst' :
  m inst = (Raise e, inst') -> bind m k inst = (Raise e, inst').
Proof. intros H. unfold bind. rewrite H. reflexivity. Qed.

Lemma bind_assoc {A B C} (m : M A) (k : A -> M B) (k' : B -> M C) inst :
  bind (bind m k) k' inst = bind m (fun a => bind (k a) k') inst.
Proof. unfold bind. destruct (m inst) as [[a|e] inst']; reflexivity. Qed.

Lemma bind_ext {A B} (m : M A) (k k' : A -> M B) inst :
  (forall a inst', k a inst' = k' a inst') -> bind m k inst = bind m k' inst.
Proof.
  intros H. unfold bind. destruct (m inst) as [[a|e] inst']; [apply H | reflexivity].
Qed.

Lemma bind_ext_l {A B} (m m' : M A) (k : A -> M B) inst :
  (forall i, m i = m' i) -> bind m k inst = bind m' k inst.
Proof. intros H. unfold bind. rewrite H. reflexivity. Qed.

(** ** The filter computes [eligible] and reports [diagnostics] *)

Section FilterCorrect.

Variable boolean_of_tag_string : string -> bool.

Lemma get_retry_number_with_spec max_retries run inst :
  get_retry_number_with max_retries run inst
  = (Return (generation_for (run_groups inst) max_retries run), inst).
Proof.
  unfold get_retry_number_with, generation_for.
  destruct (max_retries =? 0); [reflexivity|].
  unfold bind, get_run_group.
  destruct (run_groups inst (run_id run)) as [[root members]|]; [|reflexivity].
  destruct (Z.of_nat (length members) >=? max_retries + 1); [reflexivity|].
  destruct (existsb (is_parent_of run) members); reflexivity.
Qed.

Lemma get_retry_number_spec default_max run inst :
  exists inst',
    get_retry_number default_max run inst
    = (Return (generation (run_groups inst) default_max run), inst')
    /\ logged (parse_diagnostics run) inst inst'.
Proof.
  unfold get_retry_number, generation, parse_diagnostics, effective_max_retries.
  destruct (status run).
  - destruct (tags run !! MAX_RETRIES_TAG) as [raw|].
    + destruct (int raw) as [max_retries|].
      * eexists. split; [apply get_retry_number_with_spec | apply logged_nil].
      * eexists. split; [reflexivity | apply logged_log_call].
    + eexists. split; [apply get_retry_number_with_spec | apply logged_nil].
  - eexists. split; [reflexivity | apply logged_nil].
Qed.

Lemma filter_loop_spec default_max default_gate runs : forall inst,
  exists inst',
    filter_loop boolean_of_tag_string default_max default_gate runs inst
    = (Return (omap (eligible boolean_of_tag_string (run_groups inst)
                       default_max default_gate) runs), inst')
    /\ logged (flat_map (diagnostics boolean_of_tag_string (run_groups inst)
                           default_max default_gate) runs) inst inst'.
Proof.
  induction runs as [|run rest IH]; intros inst.
  - exists inst. split; [reflexivity | apply logged_nil].
  - destruct (get_retry_number_spec default_max run inst) as (inst1 & E1 & L1).
    assert (G1 : run_groups inst1 = run_groups inst) by apply L1.
    simpl filter_loop. rewrite (bind_Return _ _ _ _ _ E1).
    simpl omap. simpl flat_map. unfold eligible at 1, diagnostics at 1.
    destruct (generation (run_groups inst) default_max run) as [n|].
    + destruct (blocked_by_step_failure run _).
      * rewrite (bind_Return _ _ _ _ _ (report_engine_event_logged _ _ _ _)).
        destruct (IH (log_call (ReportEngineEvent not_retrying_message run NoEventData)
                        inst1)) as (inst2 & E2 & L2).
        simpl run_groups in E2, L2. rewrite G1 in E2, L2.
        exists inst2. split; [exact E2|].
        rewrite <- app_assoc. eapply logged_app; [exact L1|].
        eapply (logged_app [_]); [apply logged_log_call | exact L2].
      * destruct (IH inst1) as (inst2 & E2 & L2). rewrite G1 in E2, L2.
        rewrite (bind_Return _ _ _ _ _ E2).
        exists inst2. split; [reflexivity|].
        rewrite app_nil_r. eapply logged_app; eassumption.
    + destruct (IH inst1) as (inst2 & E2 & L2). rewrite G1 in E2, L2.
      exists inst2. split; [exact E2|].
      rewrite app_nil_r. eapply logged_app; eassumption.
Qed.

Lemma filter_runs_to_should_retry_spec runs default_max inst :
  exists inst',
    filter_runs_to_should_retry boolean_of_tag_string runs default_max inst
    = (Return (omap (eligible boolean_of_tag_string (run_groups inst) default_max
                       (run_retries_retry_on_asset_or_op_failure inst)) runs), inst')
    /\ logged (flat_map (diagnostics boolean_of_tag_string (run_groups inst)
                           default_max
                           (run_retries_retry_on_asset_or_op_failure inst)) runs)
         inst inst'.
Proof. apply filter_loop_spec. Qed.

Lemma in_yielded runs groups default_max default_gate run n :
  In (run, n) (omap (eligible boolean_of_tag_string groups default_max default_gate)
                 runs)
  <-> In run runs
      /\ eligible boolean_of_tag_string groups default_max default_gate run
         = Some (run, n).
Proof.
  rewrite <- list_elem_of_In, list_elem_of_omap. split.
  - intros (run' & Hin & E). apply list_elem_of_In in Hin.
    assert (run' = run).
    { unfold eligible in E. destruct (generation _ _ _); [|discriminate].
      destruct (blocked_by_step_failure _ _); congruence. }
    subst. auto.
  - intros (Hin & E). exists run. split; [by apply list_elem_of_In | exact E].
Qed.

End FilterCorrect.

(** ** Properties of the eligibility filter *)

Lemma existsb_is_parent_of run members :
  existsb (is_parent_of run) members = true <-> has_child run members.
Proof.
  rewrite existsb_exists. unfold has_child, is_parent_of.
  split; intros (run_ & Hin & H); exists run_; split; try exact Hin.
  - destruct (parent_run_id run_) as [parent|]; [|discriminate].
    apply String.eqb_eq in H. congruence.
  - rewrite H. apply String.eqb_refl.
Qed.

Lemma generation_not_failure groups default_max run :
  status run <> FAILURE -> generation groups default_max run = None.
Proof. unfold generation. destruct (status run); congruence. Qed.

Lemma eligible_generation b groups default_max default_gate run n :
  eligible b groups default_max default_gate run = Some (run, n) ->
  generation groups default_max run = Some n.
Proof.
  unfold eligible. destruct (generation groups default_max run); [|discriminate].
  destruct (blocked_by_step_failure _ _); congruence.
Qed.

(** When [generation] is [None] the filter yields the run under no number. *)
Lemma excluded_of_generation_None b runs default_max inst run :
  generation (run_groups inst) default_max run = None ->
  exists yielded inst',
    filter_runs_to_should_retry b runs default_max inst = (Return yielded, inst')
    /\ (forall n, ~ In (run, n) yielded)
    /\ run_groups inst' = run_groups inst.
Proof.
  intros Hgen.
  destruct (filter_runs_to_should_retry_spec b runs default_max inst)
    as (inst' & E & L).
  eexists _, inst'. split; [exact E|]. split; [|apply L].
  intros n Hin. apply in_yielded in Hin. destruct Hin as [_ Hel].
  apply eligible_generation in Hel. congruence.
Qed.

(** C9. Status precondition: a run whose status is not FAILURE is never
    yielded by the eligibility filter, whatever its tags and whatever the
    run-group state; the filter itself always returns. *)
Theorem filter_never_yields_non_failure
    (b : string -> bool) (runs : list DagsterRun) (default_max : Z)
    (inst : DagsterInstance) (run : DagsterRun) :
  status run <> FAILURE ->
  exists yielded inst',
    filter_runs_to_should_retry b runs default_max inst = (Return yielded, inst')
    /\ forall n, ~ In (run, n) yielded.
Proof.
  intros Hst.
  destruct (excluded_of_generation_None b runs default_max inst run)
    as (yielded & inst' & E & Hex & _).
  { by apply generation_not_failure. }
  eauto.
Qed.

Lemma generation_has_child groups default_max run root members :
  groups (run_id run) = Some (root, members) ->
  has_child run members ->
  generation groups default_max run = None.
Proof.
  intros Hg Hc. apply existsb_is_parent_of in Hc.
  unfold generation. destruct (status run); [|reflexivity].
  destruct (effective_max_retries default_max run) as [m|]; [|reflexivity].
  unfold generation_for. rewrite Hg, Hc.
  destruct (m =? 0); [reflexivity|].
  destruct (Z.of_nat (length members) >=? m + 1); reflexivity.
Qed.

(** C1. Idempotency guard: when the run's group has a member whose parent
    is the run, the filter does not yield the run; the filter leaves the
    persisted groups as they were, and any later call on an instance with
    the same persisted groups, over any batch and with any default budget,
    does not yield it either. *)
Theorem filter_excludes_already_retried
    (b : string -> bool) (runs : list DagsterRun) (default_max : Z)
    (inst : DagsterInstance) (run : DagsterRun)
    (root : string) (members : list DagsterRun) :
  run_groups inst (run_id run) = Some (root, members) ->
  has_child run members ->
  exists yielded inst',
    filter_runs_to_should_retry b runs default_max inst = (Return yielded, inst')
    /\ (forall n, ~ In (run, n) yielded)
    /\ run_groups inst' = run_groups inst
    /\ forall later_runs later_default later_inst,
         run_groups later_inst = run_groups inst' ->
         exists later_yielded later_inst',
           filter_runs_to_should_retry b later_runs later_default later_inst
           = (Return later_yielded, later_inst')
           /\ forall n, ~ In (run, n) later_yielded.
Proof.
  intros Hg Hc.
  destruct (excluded_of_generation_None b runs default_max inst run)
    as (yielded & inst' & E & Hex & Hsame).
  { eapply generation_has_child; eassumption. }
  exists yielded, inst'. repeat split; try assumption.
  intros later_runs later_default later_inst Hlater.
  destruct (excluded_of_generation_None b later_runs later_default later_inst run)
    as (yielded2 & inst2 & E2 & Hex2 & _).
  { eapply generation_has_child; [|exact Hc]. rewrite Hlater, Hsame. exact Hg. }
  eauto.
Qed.

Lemma generation_budget_exhausted groups default_max run root members max_retries :
  groups (run_id run) = Some (root, members) ->
  effective_max_retries default_max run = Some max_retries ->
  Z.of_nat (length members) >= max_retries + 1 ->
  generation groups default_max run = None.
Proof.
  intros Hg Hm Hsize. unfold generation. destruct (status run); [|reflexivity].
  rewrite Hm. unfold generation_for. rewrite Hg.
  destruct (max_retries =? 0); [reflexivity|].
  destruct (Z.geb_spec (Z.of_nat (length members)) (max_retries + 1)); [reflexivity|lia].
Qed.

(** C3. Budget exhaustion: when the run's group exists and its size is at
    least the effective max retries plus one, the filter does not yield the
    run, whatever its other tags. *)
Theorem filter_excludes_exhausted_budget
    (b : string -> bool) (runs : list DagsterRun) (default_max : Z)
    (inst : DagsterInstance) (run : DagsterRun)
    (root : string) (members : list DagsterRun) (max_retries : Z) :
  run_groups inst (run_id run) = Some (root, members) ->
  effective_max_retries default_max run = Some max_retries ->
  Z.of_nat (length members) >= max_retries + 1 ->
  exists yielded inst',
    filter_runs_to_should_retry b runs default_max inst = (Return yielded, inst')
    /\ forall n, ~ In (run, n) yielded.
Proof.
  intros Hg Hm Hsize.
  destruct (excluded_of_generation_None b runs default_max inst run)
    as (yielded & inst' & E & Hex & _).
  { eapply generation_budget_exhausted; eassumption. }
  eauto.
Qed.

Lemma in_diagnostics b runs groups default_max default_gate run ev :
  In run runs ->
  In ev (diagnostics b groups default_max default_gate run) ->
  In ev (flat_map (diagnostics b groups default_max default_gate) runs).
Proof. intros Hin Hev. apply in_flat_map. eauto. Qed.

(** C5. Resolution of the retry budget fails closed.  For a FAILURE run of
    the batch: when the max_retries tag is present and [int] raises
    ValueError on it, the filter reports the parse diagnostic on the run and
    does not yield it; when the tag is absent, the run is treated with the
    supplied default as its budget, that is, it is yielded exactly with the
    number that step 3 gives for that budget, the gate permitting; when the
    resolved budget is 0, the run is not yielded. *)
Theorem max_retries_resolution_fails_closed
    (b : string -> bool) (runs : list DagsterRun) (default_max : Z)
    (inst : DagsterInstance) (run : DagsterRun) :
  status run = FAILURE ->
  In run runs ->
  exists yielded evs inst',
    filter_runs_to_should_retry b runs default_max inst = (Return yielded, inst')
    /\ logged evs inst inst'
    /\ (forall raw,
          tags run !! MAX_RETRIES_TAG = Some raw -> int raw = None ->
          In (ReportEngineEvent parse_error_message run NoEventData) evs
          /\ forall n, ~ In (run, n) yielded)
    /\ (tags run !! MAX_RETRIES_TAG = None ->
        ~ In (ReportEngineEvent parse_error_message run NoEventData) evs
        /\ forall n,
             In (run, n) yielded
             <-> generation_for (run_groups inst) default_max run = Some n
                 /\ blocked_by_step_failure run
                      (get_boolean_tag_value b
                         (tags run !! RETRY_ON_ASSET_OR_OP_FAILURE_TAG)
                         (run_retries_retry_on_asset_or_op_failure inst)) = false)
    /\ (effective_max_retries default_max run = Some 0 ->
        forall n, ~ In (run, n) yielded).
Proof.
  intros Hst Hin.
  destruct (filter_runs_to_should_retry_spec b runs default_max inst)
    as (inst' & E & L).
  eexists _, _, inst'. split; [exact E|]. split; [exact L|].
  split; [|split].
  - intros raw Htag Hparse. split.
    + eapply in_diagnostics; [exact Hin|].
      unfold diagnostics. apply in_or_app. left.
      unfold parse_diagnostics, effective_max_retries.
      rewrite Hst, Htag, Hparse. left. reflexivity.
    + intros n Hy. apply in_yielded in Hy. destruct Hy as [_ Hel].
      apply eligible_generation in Hel.
      unfold generation, effective_max_retries in Hel.
      rewrite Hst, Htag, Hparse in Hel. discriminate.
  - intros Htag. split.
    + intros Hc. apply in_flat_map in Hc. destruct Hc as (run' & _ & Hc).
      unfold diagnostics in Hc. apply in_app_or in Hc. destruct Hc as [Hc|Hc].
      * unfold parse_diagnostics, effective_max_retries in Hc.
        destruct (status run'); [|destruct Hc].
        destruct (tags run' !! MAX_RETRIES_TAG) as [raw|] eqn:Htag'; [|destruct Hc].
        destruct (int raw); [destruct Hc|].
        destruct Hc as [[= ->]|[]]. congruence.
      * destruct (generation _ _ run'); [|destruct Hc].
        destruct (blocked_by_step_failure run' _); [|destruct Hc].
        destruct Hc as [[= Hmsg _]|[]]; try discriminate Hmsg.
    + intros n. rewrite in_yielded. unfold eligible, generation, effective_max_retries.
      rewrite Hst, Htag.
      destruct (generation_for (run_groups inst) default_max run) as [n'|].
      * destruct (blocked_by_step_failure run _).
        -- split; [intros [_ Hn] | intros [_ Hn]]; discriminate Hn.
        -- split; [intros [_ Hn] | intros [Hn _]];
             injection Hn as <-; auto.
      * split; [intros [_ Hn] | intros [Hn _]]; discriminate Hn.
  - intros Hzero n Hy. apply in_yielded in Hy. destruct Hy as [_ Hel].
    apply eligible_generation in Hel. unfold generation in Hel.
    rewrite Hst, Hzero in Hel. discriminate.
Qed.

Lemma generation_value groups default_max run n :
  generation groups default_max run = Some n ->
  match groups (run_id run) with
  | Some (_, members) => n = Z.of_nat (length members)
  | None => n = 1
  end.
Proof.
  unfold generation. destruct (status run); [|discriminate].
  destruct (effective_max_retries default_max run) as [m|]; [|discriminate].
  unfold generation_for. destruct (m =? 0); [discriminate|].
  destruct (groups (run_id run)) as [[root members]|]; [|congruence].
  destruct (Z.of_nat (length members) >=? m + 1); [discriminate|].
  destruct (existsb (is_parent_of run) members); congruence.
Qed.

(** A batch of one run that the filter finds eligible. *)
Lemma filter_single_eligible b default_max inst run n :
  generation (run_groups inst) default_max run = Some n ->
  blocked_by_step_failure run
    (get_boolean_tag_value b (tags run !! RETRY_ON_ASSET_OR_OP_FAILURE_TAG)
       (run_retries_retry_on_asset_or_op_failure inst)) = false ->
  exists inst',
    filter_runs_to_should_retry b [run] default_max inst = (Return [(run, n)], inst').
Proof.
  intros Hgen Hopen.
  destruct (filter_runs_to_should_retry_spec b [run] default_max inst)
    as (inst' & E & _).
  exists inst'. rewrite E. simpl. unfold eligible. rewrite Hgen, Hopen. reflexivity.
Qed.

(** C6. Retry generation value.  Every pair the filter yields carries the
    size of the run's group when the group exists and 1 when it does not,
    and that number is positive, a group holding at least its root run.
    In particular a FAILURE run whose max_retries tag reads as 2, with no
    group and not blocked by the step-failure gate, is yielded with
    generation 1. *)
Theorem yielded_generation_value
    (b : string -> bool) (default_max : Z) (inst : DagsterInstance) :
  (forall runs,
     (forall id root members,
        run_groups inst id = Some (root, members) -> members <> []) ->
     exists yielded inst',
       filter_runs_to_should_retry b runs default_max inst = (Return yielded, inst')
       /\ forall run n, In (run, n) yielded ->
            0 < n
            /\ match run_groups inst (run_id run) with
               | Some (_, members) => n = Z.of_nat (length members)
               | None => n = 1
               end)
  /\ (forall run raw,
        status run = FAILURE ->
        tags run !! MAX_RETRIES_TAG = Some raw ->
        int raw = Some 2 ->
        run_groups inst (run_id run) = None ->
        blocked_by_step_failure run
          (get_boolean_tag_value b (tags run !! RETRY_ON_ASSET_OR_OP_FAILURE_TAG)
             (run_retries_retry_on_asset_or_op_failure inst)) = false ->
        exists inst',
          filter_runs_to_should_retry b [run] default_max inst
          = (Return [(run, 1)], inst')).
Proof.
  split.
  - intros runs Hwf.
    destruct (filter_runs_to_should_retry_spec b runs default_max inst)
      as (inst' & E & _).
    eexists _, inst'. split; [exact E|].
    intros run n Hy. apply in_yielded in Hy. destruct Hy as [_ Hel].
    apply eligible_generation, generation_value in Hel.
    destruct (run_groups inst (run_id run)) as [[root members]|] eqn:Hg.
    + split; [|exact Hel]. specialize (Hwf _ _ _ Hg).
      destruct members; [congruence|]. subst n. simpl length. lia.
    + split; [lia | exact Hel].
  - intros run raw Hst Htag Hparse Hg Hopen.
    apply filter_single_eligible; [|exact Hopen].
    unfold generation, effective_max_retries. rewrite Hst, Htag, Hparse.
    unfold generation_for. rewrite Hg. reflexivity.
Qed.

Lemma get_retry_number_generation default_max run inst n :
  fst (get_retry_number default_max run inst) = Return (Some n) ->
  generation (run_groups inst) default_max run = Some n.
Proof.
  destruct (get_retry_number_spec default_max run inst) as (inst' & E & _).
  rewrite E. simpl. congruence.
Qed.

(** C7. Asset/op-failure gate.  The effective gate is the run's own
    retry_on_asset_or_op_failure tag, read as a boolean, when the tag is
    present, and the instance-wide default otherwise.  For a run of the
    batch that [get_retry_number] finds eligible and whose failure-reason
    tag is the step-failure sentinel: with the gate false the filter
    reports the skip on the run and does not yield it; with the gate true
    the filter yields the run with its retry number. *)
Theorem asset_or_op_failure_gate
    (b : string -> bool) (runs : list DagsterRun) (default_max : Z)
    (inst : DagsterInstance) (run : DagsterRun) (n : Z) :
  In run runs ->
  fst (get_retry_number default_max run inst) = Return (Some n) ->
  tags run !! RUN_FAILURE_REASON_TAG = Some STEP_FAILURE_value ->
  let gate :=
    get_boolean_tag_value b (tags run !! RETRY_ON_ASSET_OR_OP_FAILURE_TAG)
      (run_retries_retry_on_asset_or_op_failure inst) in
  gate = match tags run !! RETRY_ON_ASSET_OR_OP_FAILURE_TAG with
         | Some raw => b raw
         | None => run_retries_retry_on_asset_or_op_failure inst
         end
  /\ exists yielded evs inst',
       filter_runs_to_should_retry b runs default_max inst = (Return yielded, inst')
       /\ logged evs inst inst'
       /\ (gate = false ->
           In (ReportEngineEvent not_retrying_message run NoEventData) evs
           /\ forall n', ~ In (run, n') yielded)
       /\ (gate = true -> In (run, n) yielded).
Proof.
  intros Hin Hnum Hreason gate. split; [reflexivity|].
  apply get_retry_number_generation in Hnum.
  destruct (filter_runs_to_should_retry_spec b runs default_max inst)
    as (inst' & E & L).
  eexists _, _, inst'. split; [exact E|]. split; [exact L|].
  assert (Hblocked : blocked_by_step_failure run gate = negb gate).
  { unfold blocked_by_step_failure. rewrite bool_decide_eq_true_2; [reflexivity|].
    exact Hreason. }
  split.
  - intros Hclosed. split.
    + eapply in_diagnostics; [exact Hin|].
      unfold diagnostics. apply in_or_app. right.
      rewrite Hnum. fold gate. rewrite Hblocked, Hclosed. left. reflexivity.
    + intros n' Hy. apply in_yielded in Hy. destruct Hy as [_ Hel].
      unfold eligible in Hel. rewrite Hnum in Hel. fold gate in Hel.
      rewrite Hblocked, Hclosed in Hel. discriminate.
  - intros Hopen. apply in_yielded. split; [exact Hin|].
    unfold eligible. rewrite Hnum. fold gate. rewrite Hblocked, Hopen. reflexivity.
Qed.

(** The tag keys the filter reads are not the lineage pointer. *)
Lemma filter_keys_not_lineage_pointer :
  MAX_RETRIES_TAG <> AUTO_RETRY_RUN_ID_TAG
  /\ RETRY_ON_ASSET_OR_OP_FAILURE_TAG <> AUTO_RETRY_RUN_ID_TAG
  /\ RUN_FAILURE_REASON_TAG <> AUTO_RETRY_RUN_ID_TAG.
Proof. repeat split; discriminate. Qed.

Lemma generation_with_tags groups default_max run new_tags :
  same_but_lineage_pointer (tags run) new_tags ->
  generation groups default_max (with_tags run new_tags)
  = generation groups default_max run.
Proof.
  intros Hsame. destruct filter_keys_not_lineage_pointer as (Hmax & _ & _).
  unfold generation, effective_max_retries. simpl. rewrite (Hsame _ Hmax).
  destruct (status run); [|reflexivity].
  assert (Hfor : forall m, generation_for groups m (with_tags run new_tags)
                           = generation_for groups m run) by reflexivity.
  destruct (tags run !! MAX_RETRIES_TAG) as [raw|]; [|apply Hfor].
  destruct (int raw); [apply Hfor | reflexivity].
Qed.

Lemma eligible_with_tags b groups default_max default_gate run new_tags :
  same_but_lineage_pointer (tags run) new_tags ->
  eligible b groups default_max default_gate (with_tags run new_tags)
  = (fun pair => (with_tags (fst pair) new_tags, snd pair))
      <$> eligible b groups default_max default_gate run.
Proof.
  intros Hsame. destruct filter_keys_not_lineage_pointer as (_ & Hgate & Hreason).
  unfold eligible. rewrite generation_with_tags by exact Hsame.
  destruct (generation groups default_max run) as [n|]; [|reflexivity].
  unfold blocked_by_step_failure. simpl tags.
  rewrite (Hsame _ Hgate), (Hsame _ Hreason).
  destruct (_ && _); reflexivity.
Qed.

(** C10. The already-retried guard reads group membership only.  Changing,
    adding or removing the auto_retry_run_id tag of a run changes nothing in
    what the filter yields for it, apart from the run object handed back.
    Consequently a FAILURE run that carries an auto_retry_run_id tag, whose
    group is below the budget and has no member with that run as parent, and
    which the step-failure gate does not block, is yielded again. *)
Theorem already_retried_guard_ignores_lineage_tag
    (b : string -> bool) (default_max : Z) (inst : DagsterInstance)
    (run : DagsterRun) :
  (forall new_tags,
     same_but_lineage_pointer (tags run) new_tags ->
     exists yielded inst1 inst2,
       filter_runs_to_should_retry b [run] default_max inst
       = (Return yielded, inst1)
       /\ filter_runs_to_should_retry b [with_tags run new_tags] default_max inst
          = (Return (map (fun pair => (with_tags (fst pair) new_tags, snd pair))
                       yielded), inst2))
  /\ (forall child root members max_retries,
        status run = FAILURE ->
        tags run !! AUTO_RETRY_RUN_ID_TAG = Some child ->
        effective_max_retries default_max run = Some max_retries ->
        max_retries <> 0 ->
        run_groups inst (run_id run) = Some (root, members) ->
        Z.of_nat (length members) < max_retries + 1 ->
        ~ has_child run members ->
        blocked_by_step_failure run
          (get_boolean_tag_value b (tags run !! RETRY_ON_ASSET_OR_OP_FAILURE_TAG)
             (run_retries_retry_on_asset_or_op_failure inst)) = false ->
        exists inst',
          filter_runs_to_should_retry b [run] default_max inst
          = (Return [(run, Z.of_nat (length members))], inst')).
Proof.
  split.
  - intros new_tags Hsame.
    destruct (filter_runs_to_should_retry_spec b [run] default_max inst)
      as (inst1 & E1 & _).
    destruct (filter_runs_to_should_retry_spec b [with_tags run new_tags]
                default_max inst) as (inst2 & E2 & _).
    eexists _, inst1, inst2. split; [exact E1|]. rewrite E2. f_equal. f_equal.
    simpl. rewrite eligible_with_tags by exact Hsame.
    destruct (eligible b _ _ _ run); reflexivity.
  - intros child root members max_retries Hst _ Hmax Hnz Hg Hsize Hnochild Hopen.
    apply filter_single_eligible; [|exact Hopen].
    unfold generation. rewrite Hst, Hmax. unfold generation_for. rewrite Hg.
    destruct (Z.eqb_spec max_retries 0); [contradiction|].
    destruct (Z.geb_spec (Z.of_nat (length members)) (max_retries + 1)); [lia|].
    destruct (existsb (is_parent_of run) members) eqn:Hex; [|reflexivity].
    apply existsb_is_parent_of in Hex. contradiction.
Qed.

(** ** Properties of the strategy selector and the submitter *)

Lemma members_lookup_In raw strategy :
  members_lookup raw = Some strategy <-> In (raw, strategy) ReexecutionStrategy_members.
Proof.
  unfold members_lookup, ReexecutionStrategy_members. simpl.
  destruct (String.eqb_spec raw "FROM_FAILURE") as [->|H1].
  - simpl. split; [intros [= <-]; auto | intros [[= <-]|[[=]|[]]]; reflexivity].
  - destruct (String.eqb_spec raw "ALL_STEPS") as [->|H2].
    + simpl. split; [intros [= <-]; auto | intros [[=]|[[= <-]|[]]]; reflexivity].
    + simpl. split; [discriminate | intros [[= ? ?]|[[= ? ?]|[]]]; congruence].
Qed.

Lemma members_lookup_None raw :
  members_lookup raw = None <-> forall strategy, ~ In (raw, strategy) ReexecutionStrategy_members.
Proof.
  split.
  - intros Hnone strategy Hin. apply members_lookup_In in Hin. congruence.
  - intros Hnot. destruct (members_lookup raw) as [strategy|] eqn:E; [|reflexivity].
    apply members_lookup_In in E. destruct (Hnot _ E).
Qed.

Lemma storage_call_calls {A} c (effect : RunGroups -> Result A * RunGroups) inst :
  calls (snd (storage_call c effect inst)) = calls inst ++ [c].
Proof.
  unfold storage_call. destruct (effect _) as [outcome groups]. reflexivity.
Qed.

Lemma extends_calls_refl inst : extends_calls inst inst.
Proof. exists []. by rewrite app_nil_r. Qed.

Lemma extends_calls_trans inst1 inst2 inst3 :
  extends_calls inst1 inst2 -> extends_calls inst2 inst3 -> extends_calls inst1 inst3.
Proof.
  intros [l1 H1] [l2 H2]. exists (l1 ++ l2). by rewrite H2, H1, app_assoc.
Qed.

Lemma extends_calls_storage_call {A} c (effect : RunGroups -> Result A * RunGroups) inst :
  extends_calls inst (snd (storage_call c effect inst)).
Proof. exists [c]. apply storage_call_calls. Qed.

Lemma extends_calls_report message run data inst :
  extends_calls inst (snd (report_engine_event message run data inst)).
Proof. exists [ReportEngineEvent message run data]. reflexivity. Qed.

Lemma extends_calls_bind {A B} (m : M A) (k : A -> M B) inst :
  extends_calls inst (snd (m inst)) ->
  (forall a inst', extends_calls inst' (snd (k a inst'))) ->
  extends_calls inst (snd (bind m k inst)).
Proof.
  intros Hm Hk. unfold bind. destruct (m inst) as [[a|e] inst']; simpl in *.
  - eapply extends_calls_trans; [exact Hm | apply Hk].
  - exact Hm.
Qed.

(** What [retry_run] does once the job has been resolved. *)
Lemma retry_run_resolved failed_run retry_number ctx inst
    job_origin code_location repo remote_job :
  remote_job_origin failed_run = Some job_origin ->
  get_code_location (create_request_context ctx)
    (location_name (code_location_origin (repository_origin job_origin)))
  = Return code_location ->
  has_repository code_location (repository_name (repository_origin job_origin)) = true ->
  get_repository code_location (repository_name (repository_origin job_origin))
  = Return repo ->
  has_job repo (job_name failed_run) = true ->
  get_job code_location
    {| sel_location_name :=
         location_name (code_location_origin (repository_origin job_origin));
       sel_repository_name := repository_name (repository_origin job_origin);
       sel_job_name := job_name failed_run;
       sel_op_selection := op_selection failed_run;
       sel_asset_selection := asset_selection failed_run |}
  = Return remote_job ->
  retry_run failed_run retry_number ctx inst
  = (selected <- get_reexecution_strategy failed_run ;;
     new_run <-
       create_reexecuted_run (run_storage ctx)
         {| req_parent_run := failed_run;
            req_code_location := code_location;
            req_remote_job := remote_job;
            req_strategy := or_default selected;
            req_extra_tags := {[ RETRY_NUMBER_TAG := str retry_number ]};
            req_use_parent_run_tags := true |} ;;
     report_engine_event "Retrying the run" failed_run
       (EngineEventData_metadata
          [("new run", MetadataValue_dagster_run (run_id new_run))]) ;;;
     report_engine_event "Launched as an automatic retry" new_run
       (EngineEventData_metadata
          [("failed run", MetadataValue_dagster_run (run_id failed_run))]) ;;;
     submit_run (run_storage ctx) (run_id new_run) ;;;
     add_run_tags (run_storage ctx) (run_id failed_run)
       {[ AUTO_RETRY_RUN_ID_TAG := run_id new_run ]}) inst.
Proof.
  intros Horigin Hloc Hhas_repo Hrepo Hhas_job Hjob.
  unfold retry_run. rewrite Horigin.
  unfold bind at 1. unfold lift at 1. rewrite Hloc, Hhas_repo. simpl negb. cbv iota.
  unfold bind at 1. unfold lift at 1. rewrite Hrepo, Hhas_job. simpl negb. cbv iota.
  unfold bind at 1. unfold lift at 1. rewrite Hjob. reflexivity.
Qed.

(** C8. Strategy selection fails soft.  Without a retry_strategy tag the
    selector returns nothing and reports nothing; with a tag that names no
    member of the strategy enumeration it reports a diagnostic on the run
    and returns nothing; with a tag that names a member it returns that
    member.  Whenever the job of the failed run resolves, the submitter
    requests the re-executed run with the selected strategy, and with
    FROM_FAILURE when the selector returned nothing: an unrecognized
    strategy does not stop the request. *)
Theorem strategy_selection_fails_soft (run : DagsterRun) (inst : DagsterInstance) :
  (tags run !! RETRY_STRATEGY_TAG = None ->
   get_reexecution_strategy run inst = (Return None, inst))
  /\ (forall raw,
        tags run !! RETRY_STRATEGY_TAG = Some raw ->
        (forall strategy, ~ In (raw, strategy) ReexecutionStrategy_members) ->
        get_reexecution_strategy run inst
        = (Return None,
           log_call (ReportEngineEvent (strategy_error_message raw) run NoEventData)
             inst))
  /\ (forall raw strategy,
        tags run !! RETRY_STRATEGY_TAG = Some raw ->
        In (raw, strategy) ReexecutionStrategy_members ->
        get_reexecution_strategy run inst = (Return (Some strategy), inst))
  /\ (forall retry_number ctx job_origin code_location repo remote_job,
        remote_job_origin run = Some job_origin ->
        get_code_location (create_request_context ctx)
          (location_name (code_location_origin (repository_origin job_origin)))
        = Return code_location ->
        has_repository code_location
          (repository_name (repository_origin job_origin)) = true ->
        get_repository code_location
          (repository_name (repository_origin job_origin)) = Return repo ->
        has_job repo (job_name run) = true ->
        get_job code_location
          {| sel_location_name :=
               location_name (code_location_origin (repository_origin job_origin));
             sel_repository_name := repository_name (repository_origin job_origin);
             sel_job_name := job_name run;
             sel_op_selection := op_selection run;
             sel_asset_selection := asset_selection run |}
        = Return remote_job ->
        exists selected inst1 request later,
          get_reexecution_strategy run inst = (Return selected, inst1)
          /\ calls (snd (retry_run run retry_number ctx inst))
             = calls inst1 ++ CreateReexecutedRun request :: later
          /\ req_parent_run request = run
          /\ req_strategy request = or_default selected
          /\ (selected = None -> req_strategy request = FROM_FAILURE)).
Proof.
  split; [|split; [|split]].
  - intros Htag. unfold get_reexecution_strategy. rewrite Htag. reflexivity.
  - intros raw Htag Hunknown. apply members_lookup_None in Hunknown.
    unfold get_reexecution_strategy. rewrite Htag, Hunknown. reflexivity.
  - intros raw strategy Htag Hknown. apply members_lookup_In in Hknown.
    unfold get_reexecution_strategy. rewrite Htag, Hknown. reflexivity.
  - intros retry_number ctx job_origin code_location repo remote_job
      Horigin Hloc Hhas_repo Hrepo Hhas_job Hjob.
    rewrite (retry_run_resolved _ _ _ _ _ _ _ _ Horigin Hloc Hhas_repo Hrepo
               Hhas_job Hjob).
    assert (Hsel : exists selected inst1,
               get_reexecution_strategy run inst = (Return selected, inst1)).
    { unfold get_reexecution_strategy.
      destruct (tags run !! RETRY_STRATEGY_TAG) as [raw|]; [|by eexists _, _].
      destruct (members_lookup raw); by eexists _, _. }
    destruct Hsel as (selected & inst1 & Hsel).
    rewrite (bind_Return _ _ _ _ _ Hsel).
    set (request := {| req_parent_run := run; req_strategy := or_default selected |}).
    assert (Hrest : exists later,
               calls (snd (bind (create_reexecuted_run (run_storage ctx) request)
                             (fun new_run =>
                                report_engine_event "Retrying the run" run
                                  (EngineEventData_metadata
                                     [("new run", MetadataValue_dagster_run (run_id new_run))]) ;;;
                                report_engine_event "Launched as an automatic retry" new_run
                                  (EngineEventData_metadata
                                     [("failed run", MetadataValue_dagster_run (run_id run))]) ;;;
                                submit_run (run_storage ctx) (run_id new_run) ;;;
                                add_run_tags (run_storage ctx) (run_id run)
                                  {[ AUTO_RETRY_RUN_ID_TAG := run_id new_run ]})
                             inst1))
               = calls inst1 ++ CreateReexecutedRun request :: later).
    { unfold bind at 1.
      pose proof (storage_call_calls (CreateReexecutedRun request)
                    (storage_create_reexecuted_run (run_storage ctx) request) inst1)
        as Hcreate.
      unfold create_reexecuted_run.
      destruct (storage_call _ _ inst1) as [[new_run|e] inst2]; simpl in Hcreate.
      - match goal with |- exists _, calls (snd (?m inst2)) = _ =>
          assert (Hext : extends_calls inst2 (snd (m inst2)))
        end.
        { repeat (apply extends_calls_bind;
                  [first [apply extends_calls_report | apply extends_calls_storage_call]
                  | intros _ ?]).
          apply extends_calls_storage_call. }
        destruct Hext as [later Hlater]. exists later.
        rewrite Hlater, Hcreate, <- app_assoc. reflexivity.
      - exists []. simpl. exact Hcreate. }
    destruct Hrest as (later & Hlater).
    exists selected, inst1, request, later.
    split; [exact Hsel|]. split; [exact Hlater|].
    split; [reflexivity|]. split; [reflexivity|].
    intros ->. reflexivity.
Qed.

(** The claim that a missing code location makes the submitter report and
    return: with the location gone from the workspace, [retry_run] raises
    the resolver's exception and reports nothing. *)
Lemma retry_run_raises_on_missing_code_location :
  get_code_location (create_request_context Samples.context_empty) "prod"
  = Raise (Samples.location_not_found "prod")
  /\ retry_run Samples.run_P 1 Samples.context_empty Samples.fresh_instance
     = (Raise (Samples.location_not_found "prod"), Samples.fresh_instance)
  /\ ~ exists inst',
        retry_run Samples.run_P 1 Samples.context_empty Samples.fresh_instance
        = (Return tt, inst').
Proof.
  split; [reflexivity|]. split; [reflexivity|].
  intros (inst' & H). discriminate H.
Qed.

(** C4, amended. Soft-fail checkpoints of the submitter.  When the failed
    run has no remote-job origin, when the code location lacks the
    repository, and when the repository lacks the job, [retry_run] returns
    without raising after exactly one call on the instance, the diagnostic
    reported on the failed run: no run is created, none submitted, no tag
    added, and the persisted groups are untouched.  When the lookup of the
    code location raises, [retry_run] makes no call on the instance at all
    and lets the exception through; the orchestrator's boundary then
    reports it on the failed run and returns. *)
Theorem submitter_soft_fail_checkpoints
    (failed_run : DagsterRun) (retry_number : Z)
    (ctx : IWorkspaceProcessContext) (inst : DagsterInstance) :
  (remote_job_origin failed_run = None ->
   retry_run failed_run retry_number ctx inst
   = (Return tt,
      log_call (ReportEngineEvent
                  "Run does not have an external job origin, unable to retry the run."
                  failed_run NoEventData) inst))
  /\ (forall job_origin code_location,
        remote_job_origin failed_run = Some job_origin ->
        get_code_location (create_request_context ctx)
          (location_name (code_location_origin (repository_origin job_origin)))
        = Return code_location ->
        has_repository code_location
          (repository_name (repository_origin job_origin)) = false ->
        retry_run failed_run retry_number ctx inst
        = (Return tt,
           log_call (ReportEngineEvent
                       ("Could not find repository "
                          +:+ repository_name (repository_origin job_origin)
                          +:+ " in location " +:+ name code_location
                          +:+ ", unable to"
                          +:+ " retry the run. It was likely renamed or deleted.")
                       failed_run NoEventData) inst))
  /\ (forall job_origin code_location repo,
        remote_job_origin failed_run = Some job_origin ->
        get_code_location (create_request_context ctx)
          (location_name (code_location_origin (repository_origin job_origin)))
        = Return code_location ->
        has_repository code_location
          (repository_name (repository_origin job_origin)) = true ->
        get_repository code_location
          (repository_name (repository_origin job_origin)) = Return repo ->
        has_job repo (job_name failed_run) = false ->
        retry_run failed_run retry_number ctx inst
        = (Return tt,
           log_call (ReportEngineEvent
                       ("Could not find job " +:+ job_name failed_run
                          +:+ " in repository "
                          +:+ repository_name (repository_origin job_origin)
                          +:+ ", unable"
                          +:+ " to retry the run. It was likely renamed or deleted.")
                       failed_run NoEventData) inst))
  /\ (forall job_origin e,
        remote_job_origin failed_run = Some job_origin ->
        get_code_location (create_request_context ctx)
          (location_name (code_location_origin (repository_origin job_origin)))
        = Raise e ->
        retry_run failed_run retry_number ctx inst = (Raise e, inst)
        /\ submit_isolated ctx failed_run retry_number inst
           = (Return tt,
              log_call (ReportEngineEvent "Failed to retry run" failed_run
                          (EngineEventData_error (on_exception e))) inst)).
Proof.
  split; [|split; [|split]].
  - intros Horigin. unfold retry_run. rewrite Horigin. reflexivity.
  - intros job_origin code_location Horigin Hloc Hhas_repo.
    unfold retry_run. rewrite Horigin.
    unfold bind, lift. rewrite Hloc, Hhas_repo. reflexivity.
  - intros job_origin code_location repo Horigin Hloc Hhas_repo Hrepo Hhas_job.
    unfold retry_run. rewrite Horigin.
    unfold bind, lift. rewrite Hloc, Hhas_repo. simpl negb. cbv iota.
    rewrite Hrepo, Hhas_job. reflexivity.
  - intros job_origin e Horigin Hloc.
    assert (Hraise : retry_run failed_run retry_number ctx inst = (Raise e, inst)).
    { unfold retry_run. rewrite Horigin. unfold bind, lift. rewrite Hloc. reflexivity. }
    split; [exact Hraise|].
    unfold submit_isolated, try_except. rewrite Hraise. reflexivity.
Qed.

(** ** Properties of the orchestrator *)

(** Pulling the filter generator to its end gives what the loop collects:
    the run-to-the-end reading and the resumable reading of the loop agree. *)
Lemma filter_loop_resume b default_max default_gate runs : forall inst,
  filter_loop b default_max default_gate runs inst
  = (candidate <- filter_resume b default_max default_gate runs ;;
     match candidate with
     | Some (run, n, st') =>
         yielded <- filter_loop b default_max default_gate (runs_left st') ;;
         ret ((run, n) :: yielded)
     | None => ret []
     end) inst.
Proof.
  induction runs as [|run rest IH]; intros inst; [reflexivity|].
  simpl filter_loop. simpl filter_resume.
  rewrite bind_assoc. apply bind_ext. intros [n|] inst1; [|apply IH].
  destruct (blocked_by_step_failure run _); [|reflexivity].
  rewrite bind_assoc. apply bind_ext. intros _ inst2. apply IH.
Qed.

Lemma Forall_is_report_diagnostics b groups default_max default_gate run :
  Forall is_report (diagnostics b groups default_max default_gate run).
Proof.
  unfold diagnostics, parse_diagnostics. apply Forall_app. split.
  - destruct (status run); [|constructor].
    destruct (effective_max_retries 0 run); repeat constructor.
  - destruct (generation _ _ _); [|constructor].
    destruct (blocked_by_step_failure _ _); repeat constructor.
Qed.

Lemma omap_cons_None {A B} (f : A -> option B) x l :
  f x = None -> omap f (x :: l) = omap f l.
Proof. intros H. simpl. rewrite H. reflexivity. Qed.

(** One [next()] on the filter always returns; it only reports, and what it
    hands out is the first eligible run of those it had left. *)
Lemma filter_resume_spec b default_max default_gate runs : forall inst,
  exists candidate evs inst',
    filter_resume b default_max default_gate runs inst = (Return candidate, inst')
    /\ logged evs inst inst'
    /\ Forall is_report evs
    /\ match candidate with
       | Some (run, n, st') =>
           exists skipped,
             runs = skipped ++ run :: runs_left st'
             /\ omap (eligible b (run_groups inst) default_max default_gate) skipped = []
             /\ eligible b (run_groups inst) default_max default_gate run = Some (run, n)
             /\ default_max_retries st' = default_max
             /\ default_retry_on_asset_or_op_failure st' = default_gate
       | None =>
           omap (eligible b (run_groups inst) default_max default_gate) runs = []
       end.
Proof.
  induction runs as [|run rest IH]; intros inst.
  - exists None, [], inst. repeat split; [apply logged_nil | constructor].
  - destruct (get_retry_number_spec default_max run inst) as (inst1 & E1 & L1).
    assert (G1 : run_groups inst1 = run_groups inst) by apply L1.
    assert (R1 : Forall is_report (parse_diagnostics run)).
    { unfold parse_diagnostics. destruct (status run); [|constructor].
      destruct (effective_max_retries 0 run); repeat constructor. }
    simpl filter_resume. rewrite (bind_Return _ _ _ _ _ E1).
    simpl omap. unfold eligible at 1 3.
    destruct (generation (run_groups inst) default_max run) as [n|] eqn:Hgen.
    + destruct (blocked_by_step_failure run _) eqn:Hblocked.
      * rewrite (bind_Return _ _ _ _ _ (report_engine_event_logged _ _ _ _)).
        destruct (IH (log_call (ReportEngineEvent not_retrying_message run NoEventData)
                        inst1)) as (candidate & evs & inst2 & E2 & L2 & R2 & H2).
        simpl run_groups in H2. rewrite G1 in H2.
        exists candidate,
          (parse_diagnostics run
             ++ [ReportEngineEvent not_retrying_message run NoEventData] ++ evs),
          inst2.
        split; [exact E2|]. split.
        { eapply logged_app; [exact L1|].
          eapply logged_app; [apply logged_log_call | exact L2]. }
        split.
        { apply Forall_app. split; [exact R1|].
          apply Forall_app. split; [repeat constructor | exact R2]. }
        destruct candidate as [[[run' n'] st']|]; [|exact H2].
        destruct H2 as (skipped & -> & Hsk & Hel & Hd).
        exists (run :: skipped). split; [reflexivity|]. split; [|auto].
        rewrite omap_cons_None; [exact Hsk|].
        unfold eligible. rewrite Hgen, Hblocked. reflexivity.
      * eexists (Some (run, n, _)), (parse_diagnostics run), inst1.
        split; [reflexivity|]. split; [exact L1|]. split; [exact R1|].
        exists []. simpl. unfold eligible. rewrite Hgen, Hblocked. auto.
    + destruct (IH inst1) as (candidate & evs & inst2 & E2 & L2 & R2 & H2).
      rewrite G1 in H2.
      exists candidate, (parse_diagnostics run ++ evs), inst2.
      split; [exact E2|]. split; [eapply logged_app; eassumption|].
      split; [apply Forall_app; auto|].
      destruct candidate as [[[run' n'] st']|]; [|exact H2].
      destruct H2 as (skipped & -> & Hsk & Hel & Hd).
      exists (run :: skipped). split; [reflexivity|]. split; [|auto].
      rewrite omap_cons_None; [exact Hsk|].
      unfold eligible. rewrite Hgen. reflexivity.
Qed.

(** Up to its [yield] the generator only reports: no run is created or
    submitted, no tag added, and the persisted groups stay as they are.  It
    suspends on the first run left that the filter finds eligible, and
    stops only when none of the runs left is. *)
Lemma advance_spec b st inst :
  exists signal g' evs inst',
    advance b st inst = (Return (signal, g'), inst')
    /\ logged evs inst inst'
    /\ Forall is_report evs
    /\ match signal with
       | Yielded =>
           exists run n st' skipped,
             g' = Suspended run n st'
             /\ runs_left st = skipped ++ run :: runs_left st'
             /\ default_max_retries st' = default_max_retries st
             /\ default_retry_on_asset_or_op_failure st'
                = default_retry_on_asset_or_op_failure st
             /\ omap (eligible b (run_groups inst) (default_max_retries st)
                        (default_retry_on_asset_or_op_failure st)) skipped = []
             /\ eligible b (run_groups inst) (default_max_retries st)
                  (default_retry_on_asset_or_op_failure st) run = Some (run, n)
       | StopIteration =>
           g' = Exhausted
           /\ omap (eligible b (run_groups inst) (default_max_retries st)
                      (default_retry_on_asset_or_op_failure st)) (runs_left st) = []
       end.
Proof.
  unfold advance, filter_next.
  destruct (filter_resume_spec b (default_max_retries st)
              (default_retry_on_asset_or_op_failure st) (runs_left st) inst)
    as (candidate & evs & inst' & E & L & R & H).
  rewrite (bind_Return _ _ _ _ _ E).
  destruct candidate as [[[run n] st']|].
  - exists Yielded, (Suspended run n st'), evs, inst'.
    split; [reflexivity|]. split; [exact L|]. split; [exact R|].
    destruct H as (skipped & Hruns & Hsk & Hel & Hdm & Hdg).
    exists run, n, st', skipped. auto 10.
  - exists StopIteration, Exhausted, evs, inst'. auto.
Qed.

(** The failure boundary: whatever [retry_run] does, the body of the loop
    returns; an exception is reported on the failed run with its detail. *)
Lemma submit_isolated_spec ctx run retry_number inst :
  submit_isolated ctx run retry_number inst
  = match retry_run run retry_number ctx inst with
    | (Return _, inst1) => (Return tt, inst1)
    | (Raise e, inst1) =>
        (Return tt,
         log_call (ReportEngineEvent "Failed to retry run" run
                     (EngineEventData_error (on_exception e))) inst1)
    end.
Proof.
  unfold submit_isolated, try_except.
  destruct (retry_run run retry_number ctx inst) as [[[]|e] inst1]; reflexivity.
Qed.

Lemma submit_isolated_returns ctx run retry_number inst :
  exists inst', submit_isolated ctx run retry_number inst = (Return tt, inst').
Proof.
  rewrite submit_isolated_spec.
  destruct (retry_run run retry_number ctx inst) as [[?|e] inst1]; eauto.
Qed.

Lemma next_returns b ctx g inst :
  exists signal g' inst',
    next b ctx g inst = (Return (signal, g'), inst')
    /\ (signal = Yielded -> (runs_ahead g' < runs_ahead g)%nat).
Proof.
  assert (Hadv : forall st i, exists signal g' inst',
             advance b st i = (Return (signal, g'), inst')
             /\ (signal = Yielded -> (runs_ahead g' < length (runs_left st))%nat)).
  { intros st i.
    destruct (advance_spec b st i) as (signal & g' & evs & inst' & E & _ & _ & H).
    exists signal, g', inst'. split; [exact E|]. intros ->.
    destruct H as (run & n & st' & skipped & -> & Hruns & _).
    simpl. rewrite Hruns, length_app. simpl. lia. }
  destruct g as [run_records|run n st|].
  - simpl next.
    destruct (Hadv {| default_max_retries := run_retries_max_retries inst;
                      default_retry_on_asset_or_op_failure :=
                        run_retries_retry_on_asset_or_op_failure inst;
                      runs_left := map dagster_run run_records |} inst)
      as (signal & g' & inst' & E & Hlt).
    exists signal, g', inst'. split; [exact E|].
    intros Hy. specialize (Hlt Hy). simpl in Hlt. rewrite length_map in Hlt. exact Hlt.
  - simpl next.
    destruct (submit_isolated_returns ctx run n inst) as (inst1 & E1).
    rewrite (bind_Return _ _ _ _ _ E1).
    destruct (Hadv st inst1) as (signal & g' & inst' & E & Hlt).
    exists signal, g', inst'. auto.
  - exists StopIteration, Exhausted, inst. split; [reflexivity | discriminate].
Qed.

Lemma exhaust_returns b ctx : forall fuel g inst,
  (runs_ahead g < fuel)%nat ->
  exists checkpoints inst',
    exhaust b ctx fuel g inst = (Return (Some checkpoints), inst')
    /\ (checkpoints <= runs_ahead g)%nat.
Proof.
  induction fuel as [|fuel IH]; intros g inst Hfuel; [lia|].
  destruct (next_returns b ctx g inst) as (signal & g' & inst1 & E & Hlt).
  simpl exhaust. rewrite (bind_Return _ _ _ _ _ E).
  destruct signal.
  - specialize (Hlt eq_refl).
    destruct (IH g' inst1) as (k & inst' & E' & Hk); [lia|].
    rewrite (bind_Return _ _ _ _ _ E').
    exists (S k), inst'. split; [reflexivity | lia].
  - exists O, inst1. split; [reflexivity | lia].
Qed.

(** What the consumer does with a step of the generator, [fuel] pulls left. *)
Lemma exhaust_step b ctx fuel g inst :
  exhaust b ctx (S fuel) g inst
  = (step <- next b ctx g ;;
     match step with
     | (Yielded, g') =>
         checkpoints <- exhaust b ctx fuel g' ;;
         ret (S <$> checkpoints)
     | (StopIteration, _) => ret (Some O)
     end) inst.
Proof. reflexivity. Qed.

(** Pulling the generator to its end is running the two loops in one
    piece. *)
Lemma advance_exhaust_sweep b ctx default_max default_gate runs :
  forall fuel inst,
    (length runs <= fuel)%nat ->
    (step <- advance b {| default_max_retries := default_max;
                          default_retry_on_asset_or_op_failure := default_gate;
                          runs_left := runs |} ;;
     match step with
     | (Yielded, g') =>
         checkpoints <- exhaust b ctx fuel g' ;;
         ret (S <$> checkpoints)
     | (StopIteration, _) => ret (Some O)
     end) inst
    = (checkpoints <- sweep b ctx default_max default_gate runs ;;
       ret (Some checkpoints)) inst.
Proof.
  induction runs as [|run rest IH]; intros fuel inst Hfuel; [reflexivity|].
  assert (IH' : forall fuel' inst',
            (length rest <= fuel')%nat ->
            bind (filter_resume b default_max default_gate rest)
              (fun candidate =>
                 bind (match candidate with
                       | Some (run, retry_number, st') =>
                           ret (Yielded, Suspended run retry_number st')
                       | None => ret (StopIteration, Exhausted)
                       end)
                   (fun step =>
                      match step with
                      | (Yielded, g') =>
                          checkpoints <- exhaust b ctx fuel' g' ;;
                          ret (S <$> checkpoints)
                      | (StopIteration, _) => ret (Some O)
                      end)) inst'
            = bind (sweep b ctx default_max default_gate rest)
                (fun checkpoints => ret (Some checkpoints)) inst').
  { intros fuel' inst' Hle. rewrite <- (IH fuel' inst' Hle).
    unfold advance, filter_next. cbn [default_max_retries
      default_retry_on_asset_or_op_failure runs_left].
    rewrite bind_assoc. reflexivity. }
  simpl in Hfuel.
  unfold advance, filter_next. cbn [default_max_retries
    default_retry_on_asset_or_op_failure runs_left].
  simpl filter_resume. simpl sweep.
  rewrite !bind_assoc. apply bind_ext. intros [n|] inst1; cbv beta;
    [|apply IH'; lia].
  destruct (blocked_by_step_failure run _).
  - rewrite !bind_assoc. apply bind_ext. intros _ inst2. apply IH'. lia.
  - destruct fuel as [|fuel]; [lia|].
    change (bind (exhaust b ctx (S fuel)
                    (Suspended run n
                       {| default_max_retries := default_max;
                          default_retry_on_asset_or_op_failure := default_gate;
                          runs_left := rest |}))
              (fun checkpoints => ret (S <$> checkpoints)) inst1
            = bind (bind (submit_isolated ctx run n)
                      (fun _ => bind (sweep b ctx default_max default_gate rest)
                                  (fun checkpoints => ret (S checkpoints))))
                (fun checkpoints => ret (Some checkpoints)) inst1).
    rewrite (bind_ext_l _ _ _ _ (exhaust_step b ctx fuel _)).
    simpl next. rewrite !bind_assoc. apply bind_ext. intros _ inst2.
    etransitivity; [symmetry; apply bind_assoc|].
    assert (Hle : (length rest <= fuel)%nat) by lia.
    unfold bind at 1. rewrite (IH fuel inst2 Hle). unfold bind.
    destruct (sweep b ctx default_max default_gate rest inst2) as [[k|e] inst3];
      reflexivity.
Qed.

(** C2. Failure isolation in the orchestrator.  ([report_engine_event] and
    [get_run_group] are taken as calls that do not raise.)
    - A checkpoint for each pair of the filter, before its submission.
      From its start and from the end of the previous submission the
      generator runs the filter only: it makes nothing but diagnostic
      reports and leaves the persisted groups alone; it passes over runs
      left that are not eligible, suspends at its [yield] on the first one
      that is, holding that run and its retry number, and stops only when
      no run left is eligible.  The submission of the pair it holds is the
      first thing the following [next()] does.
    - The submission runs inside the boundary: the loop body returns
      whatever [retry_run] does; when [retry_run] raises, the exception is
      reported on the failed run as a "Failed to retry run" event carrying
      the captured error, and is dropped.
    - No exception leaves the generator and processing goes on: every
      [next()] returns, and a consumer that pulls one time more than there
      are run records has run the two loops in full ([sweep]): every pair
      the filter yields along the way had its checkpoint and its
      submission. *)
Theorem orchestrator_failure_isolation
    (b : string -> bool) (ctx : IWorkspaceProcessContext) :
  (forall run_records inst,
     next b ctx (consume_new_runs_for_automatic_reexecution run_records) inst
     = advance b
         {| default_max_retries := run_retries_max_retries inst;
            default_retry_on_asset_or_op_failure :=
              run_retries_retry_on_asset_or_op_failure inst;
            runs_left := map dagster_run run_records |} inst)
  /\ (forall run retry_number st inst,
        next b ctx (Suspended run retry_number st) inst
        = advance b st (snd (submit_isolated ctx run retry_number inst)))
  /\ (forall st inst,
        exists signal g' evs inst',
          advance b st inst = (Return (signal, g'), inst')
          /\ logged evs inst inst'
          /\ Forall is_report evs
          /\ match signal with
             | Yielded =>
                 exists run n st' skipped,
                   g' = Suspended run n st'
                   /\ runs_left st = skipped ++ run :: runs_left st'
                   /\ default_max_retries st' = default_max_retries st
                   /\ default_retry_on_asset_or_op_failure st'
                      = default_retry_on_asset_or_op_failure st
                   /\ omap (eligible b (run_groups inst) (default_max_retries st)
                              (default_retry_on_asset_or_op_failure st)) skipped
                      = []
                   /\ eligible b (run_groups inst) (default_max_retries st)
                        (default_retry_on_asset_or_op_failure st) run
                      = Some (run, n)
             | StopIteration =>
                 g' = Exhausted
                 /\ omap (eligible b (run_groups inst) (default_max_retries st)
                            (default_retry_on_asset_or_op_failure st))
                      (runs_left st) = []
             end)
  /\ (forall run retry_number inst,
        submit_isolated ctx run retry_number inst
        = match retry_run run retry_number ctx inst with
          | (Return _, inst1) => (Return tt, inst1)
          | (Raise e, inst1) =>
              (Return tt,
               log_call (ReportEngineEvent "Failed to retry run" run
                           (EngineEventData_error (on_exception e))) inst1)
          end)
  /\ (forall g inst,
        exists signal g' inst', next b ctx g inst = (Return (signal, g'), inst'))
  /\ (forall run_records inst,
        exhaust b ctx (S (length run_records))
          (consume_new_runs_for_automatic_reexecution run_records) inst
        = (checkpoints <-
             sweep b ctx (run_retries_max_retries inst)
               (run_retries_retry_on_asset_or_op_failure inst)
               (map dagster_run run_records) ;;
           ret (Some checkpoints)) inst
        /\ exists checkpoints inst',
             exhaust b ctx (S (length run_records))
               (consume_new_runs_for_automatic_reexecution run_records) inst
             = (Return (Some checkpoints), inst')
             /\ (checkpoints <= length run_records)%nat).
Proof.
  split; [reflexivity|]. split; [|split; [|split; [|split]]].
  - intros run retry_number st inst. simpl next.
    destruct (submit_isolated_returns ctx run retry_number inst) as (inst1 & E1).
    rewrite (bind_Return _ _ _ _ _ E1), E1. reflexivity.
  - intros st inst. apply advance_spec.
  - intros run retry_number inst. apply submit_isolated_spec.
  - intros g inst.
    destruct (next_returns b ctx g inst) as (signal & g' & inst' & E & _). eauto.
  - intros run_records inst. split.
    + rewrite exhaust_step.
      rewrite <- (advance_exhaust_sweep b ctx _ _ _ (length run_records) inst)
        by (rewrite length_map; lia).
      reflexivity.
    + apply (exhaust_returns b ctx (S (length run_records))
               (consume_new_runs_for_automatic_reexecution run_records) inst).
      simpl. lia.
Qed.


(** ** Further properties of the eligibility filter *)

Lemma generation_for_iff groups max_retries run n :
  generation_for groups max_retries run = Some n
  <-> max_retries <> 0
      /\ match groups (run_id run) with
         | Some (_, members) =>
             Z.of_nat (length members) < max_retries + 1
             /\ ~ has_child run members
             /\ n = Z.of_nat (length members)
         | None => n = 1
         end.
Proof.
  unfold generation_for.
  destruct (Z.eqb_spec max_retries 0) as [->|Hnz].
  { split; [discriminate | intros [H _]; congruence]. }
  destruct (groups (run_id run)) as [[root members]|].
  - destruct (Z.geb_spec (Z.of_nat (length members)) (max_retries + 1))
      as [Hge|Hlt].
    { split; [discriminate | intros (_ & Hlt & _); lia]. }
    destruct (existsb (is_parent_of run) members) eqn:Hex.
    + apply existsb_is_parent_of in Hex.
      split; [discriminate | intros (_ & _ & H & _); contradiction].
    + assert (Hnochild : ~ has_child run members).
      { intros Hc. apply existsb_is_parent_of in Hc. congruence. }
      split; [intros [= <-]; repeat split; auto; lia
             | intros (_ & _ & _ & ->); reflexivity].
  - split; [intros [= <-]; auto | intros (_ & ->); reflexivity].
Qed.

Lemma generation_iff groups default_max run n :
  generation groups default_max run = Some n
  <-> status run = FAILURE
      /\ exists max_retries,
           effective_max_retries default_max run = Some max_retries
           /\ generation_for groups max_retries run = Some n.
Proof.
  unfold generation. destruct (status run).
  - destruct (effective_max_retries default_max run) as [m|].
    + split; [intros H; split; eauto | intros (_ & m' & [= <-] & H); exact H].
    + split; [discriminate | intros (_ & m' & [=] & _)].
  - split; [discriminate | intros ([=] & _)].
Qed.

Lemma blocked_by_step_failure_false run gate :
  blocked_by_step_failure run gate = false
  <-> ~ (tags run !! RUN_FAILURE_REASON_TAG = Some STEP_FAILURE_value /\ gate = false).
Proof.
  unfold blocked_by_step_failure.
  destruct (decide (tags run !! RUN_FAILURE_REASON_TAG = Some STEP_FAILURE_value))
    as [Heq|Hne].
  - rewrite bool_decide_eq_true_2 by exact Heq. destruct gate; simpl.
    + split; [intros _ [_ H]; discriminate | reflexivity].
    + split; [discriminate | intros H; destruct H; auto].
  - rewrite bool_decide_eq_false_2 by exact Hne. simpl.
    split; [intros _ [H _]; contradiction | reflexivity].
Qed.

Lemma eligible_iff b groups default_max default_gate run n :
  eligible b groups default_max default_gate run = Some (run, n)
  <-> generation groups default_max run = Some n
      /\ blocked_by_step_failure run
           (get_boolean_tag_value b (tags run !! RETRY_ON_ASSET_OR_OP_FAILURE_TAG)
              default_gate) = false.
Proof.
  unfold eligible. destruct (generation groups default_max run) as [n'|].
  - destruct (blocked_by_step_failure run _).
    + split; [discriminate | intros [_ [=]]].
    + split; [intros [= <-]; auto | intros [[= <-] _]; reflexivity].
  - split; [discriminate | intros [[=] _]].
Qed.

(** X1. What the filter yields, in full: a pair [(run, n)] is yielded
    exactly when the run is in the batch, its status is FAILURE, its budget
    resolves to a number other than 0, its group (if any) is below the
    budget and has no child of the run, [n] is the size of the group (1
    without a group), and it is not the case that the run failed on a step
    with the gate closed. *)
Theorem filter_yields_iff
    (b : string -> bool) (runs : list DagsterRun) (default_max : Z)
    (inst : DagsterInstance) :
  exists yielded inst',
    filter_runs_to_should_retry b runs default_max inst = (Return yielded, inst')
    /\ forall run n,
         In (run, n) yielded
         <-> In run runs
             /\ status run = FAILURE
             /\ (exists max_retries,
                   effective_max_retries default_max run = Some max_retries
                   /\ max_retries <> 0
                   /\ match run_groups inst (run_id run) with
                      | Some (_, members) =>
                          Z.of_nat (length members) < max_retries + 1
                          /\ ~ has_child run members
                          /\ n = Z.of_nat (length members)
                      | None => n = 1
                      end)
             /\ ~ (tags run !! RUN_FAILURE_REASON_TAG = Some STEP_FAILURE_value
                   /\ get_boolean_tag_value b
                        (tags run !! RETRY_ON_ASSET_OR_OP_FAILURE_TAG)
                        (run_retries_retry_on_asset_or_op_failure inst) = false).
Proof.
  destruct (filter_runs_to_should_retry_spec b runs default_max inst)
    as (inst' & E & _).
  eexists _, inst'. split; [exact E|].
  intros run n. rewrite in_yielded, eligible_iff, generation_iff,
    blocked_by_step_failure_false.
  split.
  - intros (Hin & (Hst & m & Hm & Hfor) & Hopen).
    apply generation_for_iff in Hfor. destruct Hfor as [Hnz Hg].
    repeat split; eauto.
  - intros (Hin & Hst & (m & Hm & Hnz & Hg) & Hopen).
    repeat split; auto. exists m. split; [exact Hm|].
    apply generation_for_iff. auto.
Qed.

Lemma omap_eligible_sublist b groups default_max default_gate runs :
  map fst (omap (eligible b groups default_max default_gate) runs) `sublist_of` runs.
Proof.
  induction runs as [|run rest IH]; [constructor|].
  simpl. unfold eligible at 1.
  destruct (generation groups default_max run) as [n|];
    [|by apply sublist_cons].
  destruct (blocked_by_step_failure run _); [by apply sublist_cons|].
  simpl. by apply sublist_skip.
Qed.

(** X2. The filter keeps the order of the batch and yields each position of
    it at most once: the yielded runs, in the order yielded, are a
    subsequence of the batch; in particular there are no more pairs than
    runs. *)
Theorem filter_yields_in_batch_order
    (b : string -> bool) (runs : list DagsterRun) (default_max : Z)
    (inst : DagsterInstance) :
  exists yielded inst',
    filter_runs_to_should_retry b runs default_max inst = (Return yielded, inst')
    /\ map fst yielded `sublist_of` runs
    /\ (length yielded <= length runs)%nat.
Proof.
  destruct (filter_runs_to_should_retry_spec b runs default_max inst)
    as (inst' & E & _).
  eexists _, inst'. split; [exact E|].
  pose proof (omap_eligible_sublist b (run_groups inst) default_max
                (run_retries_retry_on_asset_or_op_failure inst) runs) as Hsub.
  split; [exact Hsub|].
  apply sublist_length in Hsub. rewrite length_map in Hsub. exact Hsub.
Qed.

Lemma diagnostics_cases b groups default_max default_gate run :
  diagnostics b groups default_max default_gate run = []
  \/ (diagnostics b groups default_max default_gate run
      = [ReportEngineEvent parse_error_message run NoEventData]
      /\ eligible b groups default_max default_gate run = None)
  \/ (diagnostics b groups default_max default_gate run
      = [ReportEngineEvent not_retrying_message run NoEventData]
      /\ eligible b groups default_max default_gate run = None).
Proof.
  unfold diagnostics, eligible, parse_diagnostics, generation.
  destruct (status run); [|left; reflexivity].
  unfold effective_max_retries.
  destruct (tags run !! MAX_RETRIES_TAG) as [raw|].
  - destruct (int raw) as [m|].
    + destruct (generation_for groups m run); [|left; reflexivity].
      destruct (blocked_by_step_failure run _); [right; right|left]; auto.
    + right. left. auto.
  - destruct (generation_for groups default_max run); [|left; reflexivity].
    destruct (blocked_by_step_failure run _); [right; right|left]; auto.
Qed.

Lemma flat_map_diagnostics b groups default_max default_gate runs :
  (length (flat_map (diagnostics b groups default_max default_gate) runs)
   <= length runs)%nat
  /\ forall c,
       In c (flat_map (diagnostics b groups default_max default_gate) runs) ->
       exists run,
         In run runs
         /\ eligible b groups default_max default_gate run = None
         /\ (c = ReportEngineEvent parse_error_message run NoEventData
             \/ c = ReportEngineEvent not_retrying_message run NoEventData).
Proof.
  induction runs as [|run rest [IHlen IHin]]; [split; [reflexivity | intros c []]|].
  simpl flat_map. rewrite length_app. simpl length.
  destruct (diagnostics_cases b groups default_max default_gate run)
    as [E | [[E Hel] | [E Hel]]]; rewrite E; simpl; (split; [lia|]).
  - intros c Hc. destruct (IHin c Hc) as (r & Hr & H). exists r. split; [right|]; auto.
  - intros c [<- | Hc].
    + exists run. split; [left|]; auto.
    + destruct (IHin c Hc) as (r & Hr & H). exists r. split; [right|]; auto.
  - intros c [<- | Hc].
    + exists run. split; [left|]; auto.
    + destruct (IHin c Hc) as (r & Hr & H). exists r. split; [right|]; auto.
Qed.

Lemma Forall2_map_r_In {A B} (P : A -> B -> Prop) (f : A -> B) (l : list A) :
  (forall x, In x l -> P x (f x)) -> Forall2 P l (map f l).
Proof.
  induction l as [|x l IH]; intros H; [constructor|].
  simpl. constructor; [apply H; left; reflexivity|].
  apply IH. intros y Hy. apply H. right. exact Hy.
Qed.

(** X3. The filter only reports.  All it does to the instance is report
    engine events: the persisted groups and the defaults are unchanged, no
    run is created or submitted and no tag added.  What it reports is, run
    by run in the order of the batch, at most one event per run: nothing,
    or the parse diagnostic on that run, or the step-failure diagnostic on
    that run, the latter two only for a run it does not yield.  It never
    reports on a run that it yields. *)
Theorem filter_only_reports
    (b : string -> bool) (runs : list DagsterRun) (default_max : Z)
    (inst : DagsterInstance) :
  exists yielded evs inst',
    filter_runs_to_should_retry b runs default_max inst = (Return yielded, inst')
    /\ logged evs inst inst'
    /\ (exists per_run : list (list InstanceCall),
          evs = concat per_run
          /\ Forall2
               (fun run reported =>
                  reported = []
                  \/ ((reported = [ReportEngineEvent parse_error_message run
                                     NoEventData]
                       \/ reported = [ReportEngineEvent not_retrying_message run
                                        NoEventData])
                      /\ forall n, ~ In (run, n) yielded))
               runs per_run)
    /\ (forall run n message data,
          In (run, n) yielded -> ~ In (ReportEngineEvent message run data) evs).
Proof.
  destruct (filter_runs_to_should_retry_spec b runs default_max inst)
    as (inst' & E & L).
  destruct (flat_map_diagnostics b (run_groups inst) default_max
              (run_retries_retry_on_asset_or_op_failure inst) runs) as [Hlen Hin].
  eexists _, _, inst'. split; [exact E|]. split; [exact L|].
  split.
  - exists (map (diagnostics b (run_groups inst) default_max
                   (run_retries_retry_on_asset_or_op_failure inst)) runs).
    split; [apply flat_map_concat_map|].
    apply Forall2_map_r_In. intros run _.
    destruct (diagnostics_cases b (run_groups inst) default_max
                (run_retries_retry_on_asset_or_op_failure inst) run)
      as [Hd | [[Hd Hel] | [Hd Hel]]]; [left; exact Hd | right | right];
      (split; [auto|]); intros n Hy; apply in_yielded in Hy;
      destruct Hy as [_ Hy]; congruence.
  - intros run n message data Hy Hc. apply in_yielded in Hy. destruct Hy as [_ Hel].
    destruct (Hin _ Hc) as (run' & _ & Hnone & [[= _ <- _] | [= _ <- _]]);
      congruence.
Qed.

Lemma filter_loop_app b default_max default_gate runs1 runs2 : forall inst,
  filter_loop b default_max default_gate (runs1 ++ runs2) inst
  = (yielded1 <- filter_loop b default_max default_gate runs1 ;;
     yielded2 <- filter_loop b default_max default_gate runs2 ;;
     ret (yielded1 ++ yielded2)) inst.
Proof.
  induction runs1 as [|run rest IH]; intros inst.
  - simpl app. unfold bind. simpl filter_loop at 2. unfold ret at 1.
    destruct (filter_loop _ _ _ runs2 inst) as [[y|e] i]; reflexivity.
  - simpl app. simpl filter_loop.
    rewrite bind_assoc. apply bind_ext. intros [n|] inst1; [|apply IH].
    destruct (blocked_by_step_failure run _).
    + rewrite bind_assoc. apply bind_ext. intros _ inst2. apply IH.
    + rewrite (bind_ext_l _ _ _ _ IH). rewrite !bind_assoc.
      apply bind_ext. intros y1 inst2. rewrite bind_assoc. reflexivity.
Qed.

Lemma logged_inj evs inst inst1 inst2 :
  logged evs inst inst1 -> logged evs inst inst2 -> inst1 = inst2.
Proof.
  unfold logged. intros (A1 & A2 & A3 & A4) (B1 & B2 & B3 & B4).
  destruct inst1, inst2. simpl in *. congruence.
Qed.

(** X4. Filtering a batch made of two parts is filtering the first part
    and then the second on the instance the first call left: the yielded
    pairs of the whole are those of the first part followed by those of the
    second, and the instance ends in the same state. *)
Theorem filter_app
    (b : string -> bool) (runs1 runs2 : list DagsterRun) (default_max : Z)
    (inst : DagsterInstance) :
  exists yielded1 inst1 yielded2 inst2,
    filter_runs_to_should_retry b runs1 default_max inst = (Return yielded1, inst1)
    /\ filter_runs_to_should_retry b runs2 default_max inst1
       = (Return yielded2, inst2)
    /\ filter_runs_to_should_retry b (runs1 ++ runs2) default_max inst
       = (Return (yielded1 ++ yielded2), inst2).
Proof.
  destruct (filter_runs_to_should_retry_spec b runs1 default_max inst)
    as (inst1 & E1 & L1).
  destruct (filter_runs_to_should_retry_spec b runs2 default_max inst1)
    as (inst2 & E2 & L2).
  eexists _, inst1, _, inst2. split; [exact E1|]. split; [exact E2|].
  assert (Hgate : run_retries_retry_on_asset_or_op_failure inst1
                  = run_retries_retry_on_asset_or_op_failure inst) by apply L1.
  unfold filter_runs_to_should_retry in *. rewrite Hgate in E2 |- *.
  rewrite filter_loop_app.
  rewrite (bind_Return _ _ _ _ _ E1), (bind_Return _ _ _ _ _ E2). reflexivity.
Qed.

(** X5. The filter can be repeated: a second call on the same batch, on
    the instance the first call left, yields the same pairs and reports the
    same diagnostics once more. *)
Theorem filter_repeatable
    (b : string -> bool) (runs : list DagsterRun) (default_max : Z)
    (inst : DagsterInstance) :
  exists yielded evs inst1 inst2,
    filter_runs_to_should_retry b runs default_max inst = (Return yielded, inst1)
    /\ logged evs inst inst1
    /\ filter_runs_to_should_retry b runs default_max inst1 = (Return yielded, inst2)
    /\ logged evs inst1 inst2.
Proof.
  destruct (filter_runs_to_should_retry_spec b runs default_max inst)
    as (inst1 & E1 & L1).
  destruct (filter_runs_to_should_retry_spec b runs default_max inst1)
    as (inst2 & E2 & L2).
  assert (Hgate : run_retries_retry_on_asset_or_op_failure inst1
                  = run_retries_retry_on_asset_or_op_failure inst) by apply L1.
  assert (Hgroups : run_groups inst1 = run_groups inst) by apply L1.
  rewrite Hgate, Hgroups in E2, L2.
  eexists _, _, inst1, inst2. eauto.
Qed.

(** X6. The retry number stays within the budget.  Every yielded pair
    belongs to a run whose budget resolved to some [max_retries] other than
    0; when that budget is positive the retry number is at most the budget;
    a negative budget lets a run through only when it has no group, as
    retry number 1. *)
Theorem generation_within_budget
    (b : string -> bool) (runs : list DagsterRun) (default_max : Z)
    (inst : DagsterInstance) :
  exists yielded inst',
    filter_runs_to_should_retry b runs default_max inst = (Return yielded, inst')
    /\ forall run n,
         In (run, n) yielded ->
         exists max_retries,
           effective_max_retries default_max run = Some max_retries
           /\ max_retries <> 0
           /\ (0 < max_retries -> n <= max_retries)
           /\ (max_retries < 0 -> run_groups inst (run_id run) = None /\ n = 1).
Proof.
  destruct (filter_runs_to_should_retry_spec b runs default_max inst)
    as (inst' & E & _).
  eexists _, inst'. split; [exact E|].
  intros run n Hy. apply in_yielded in Hy. destruct Hy as [_ Hel].
  apply eligible_generation, generation_iff in Hel.
  destruct Hel as (_ & m & Hm & Hfor). apply generation_for_iff in Hfor.
  destruct Hfor as [Hnz Hg]. exists m. split; [exact Hm|]. split; [exact Hnz|].
  destruct (run_groups inst (run_id run)) as [[root members]|].
  - destruct Hg as (Hsize & _ & ->). split; intros; lia.
  - subst n. split; [intros; lia | auto].
Qed.

(** X7. With a default budget of 0 retries are opt-in: every run the
    filter yields carries a max_retries tag that parses to a number other
    than 0. *)
Theorem default_zero_is_opt_in
    (b : string -> bool) (runs : list DagsterRun) (inst : DagsterInstance) :
  exists yielded inst',
    filter_runs_to_should_retry b runs 0 inst = (Return yielded, inst')
    /\ forall run n,
         In (run, n) yielded ->
         exists raw max_retries,
           tags run !! MAX_RETRIES_TAG = Some raw
           /\ int raw = Some max_retries
           /\ max_retries <> 0.
Proof.
  destruct (filter_runs_to_should_retry_spec b runs 0 inst) as (inst' & E & _).
  eexists _, inst'. split; [exact E|].
  intros run n Hy. apply in_yielded in Hy. destruct Hy as [_ Hel].
  apply eligible_generation, generation_iff in Hel.
  destruct Hel as (_ & m & Hm & Hfor). apply generation_for_iff in Hfor.
  destruct Hfor as [Hnz _]. unfold effective_max_retries in Hm.
  destruct (tags run !! MAX_RETRIES_TAG) as [raw|]; [eauto | congruence].
Qed.

(** X8. The gate matters for step failures only.  For a run of the batch
    whose failure-reason tag is absent or is not the step-failure sentinel,
    the filter yields the run exactly with the number [get_retry_number]
    gives it, whatever the retry_on_asset_or_op_failure tag and default
    are, and never reports the step-failure diagnostic on it. *)
Theorem gate_only_for_step_failures
    (b : string -> bool) (runs : list DagsterRun) (default_max : Z)
    (inst : DagsterInstance) (run : DagsterRun) :
  In run runs ->
  tags run !! RUN_FAILURE_REASON_TAG <> Some STEP_FAILURE_value ->
  exists yielded evs inst',
    filter_runs_to_should_retry b runs default_max inst = (Return yielded, inst')
    /\ logged evs inst inst'
    /\ (forall n, In (run, n) yielded
                  <-> fst (get_retry_number default_max run inst) = Return (Some n))
    /\ ~ In (ReportEngineEvent not_retrying_message run NoEventData) evs.
Proof.
  intros Hin Hreason.
  destruct (filter_runs_to_should_retry_spec b runs default_max inst)
    as (inst' & E & L).
  assert (Hopen : forall gate, blocked_by_step_failure run gate = false).
  { intros gate. apply blocked_by_step_failure_false. intros [H _]. contradiction. }
  eexists _, _, inst'. split; [exact E|]. split; [exact L|]. split.
  - intros n. rewrite in_yielded, eligible_iff.
    destruct (get_retry_number_spec default_max run inst) as (i & Eg & _).
    rewrite Eg. simpl. split.
    + intros (_ & Hgen & _). congruence.
    + intros [= Hgen]. auto.
  - intros Hc. apply in_flat_map in Hc.
    destruct Hc as (run' & _ & Hc). unfold diagnostics in Hc.
    apply in_app_or in Hc. destruct Hc as [Hc|Hc].
    + unfold parse_diagnostics in Hc. destruct (status run'); [|destruct Hc].
      destruct (effective_max_retries 0 run'); [destruct Hc|].
      destruct Hc as [[=]|[]].
    + destruct (generation _ _ run'); [|destruct Hc].
      destruct (blocked_by_step_failure run' _) eqn:Hb; [|destruct Hc].
      destruct Hc as [[= ->]|[]]. rewrite Hopen in Hb. discriminate.
Qed.

Lemma omap_cons {A B} (f : A -> option B) x l :
  omap f (x :: l) = match f x with Some y => y :: omap f l | None => omap f l end.
Proof. reflexivity. Qed.

Lemma eligible_default_irrelevant b groups d1 d2 default_gate run :
  is_Some (tags run !! MAX_RETRIES_TAG) ->
  eligible b groups d1 default_gate run = eligible b groups d2 default_gate run
  /\ diagnostics b groups d1 default_gate run
     = diagnostics b groups d2 default_gate run.
Proof.
  intros [raw Htag].
  assert (Hgen : generation groups d1 run = generation groups d2 run).
  { unfold generation, effective_max_retries. rewrite Htag. reflexivity. }
  unfold eligible, diagnostics. rewrite Hgen. auto.
Qed.

(** X9. The max_retries tag overrides the default budget: on a batch all of
    whose runs carry the tag, the filter does the same (same yielded pairs,
    same reports, same final instance) whatever default budget it is
    given. *)
Theorem max_retries_tag_overrides_default
    (b : string -> bool) (runs : list DagsterRun) (inst : DagsterInstance)
    (default1 default2 : Z) :
  (forall run, In run runs -> is_Some (tags run !! MAX_RETRIES_TAG)) ->
  filter_runs_to_should_retry b runs default1 inst
  = filter_runs_to_should_retry b runs default2 inst.
Proof.
  intros Htagged.
  destruct (filter_runs_to_should_retry_spec b runs default1 inst)
    as (inst1 & E1 & L1).
  destruct (filter_runs_to_should_retry_spec b runs default2 inst)
    as (inst2 & E2 & L2).
  rewrite E1, E2.
  assert (Hsame : forall run, In run runs ->
            eligible b (run_groups inst) default1
              (run_retries_retry_on_asset_or_op_failure inst) run
            = eligible b (run_groups inst) default2
                (run_retries_retry_on_asset_or_op_failure inst) run
            /\ diagnostics b (run_groups inst) default1
                 (run_retries_retry_on_asset_or_op_failure inst) run
               = diagnostics b (run_groups inst) default2
                   (run_retries_retry_on_asset_or_op_failure inst) run).
  { intros run Hin. apply eligible_default_irrelevant. auto. }
  clear E1 E2. revert L1 L2.
  assert (Hy : omap (eligible b (run_groups inst) default1
                       (run_retries_retry_on_asset_or_op_failure inst)) runs
               = omap (eligible b (run_groups inst) default2
                         (run_retries_retry_on_asset_or_op_failure inst)) runs
               /\ flat_map (diagnostics b (run_groups inst) default1
                              (run_retries_retry_on_asset_or_op_failure inst)) runs
                  = flat_map (diagnostics b (run_groups inst) default2
                                (run_retries_retry_on_asset_or_op_failure inst)) runs).
  { clear Htagged. induction runs as [|run rest IH]; [auto|].
    destruct (Hsame run) as [He Hd]; [left; reflexivity|].
    destruct IH as [IHy IHd]; [intros r Hr; apply Hsame; right; exact Hr|].
    split.
    - rewrite !omap_cons, He, IHy. reflexivity.
    - simpl flat_map. rewrite Hd, IHd. reflexivity. }
  destruct Hy as [-> ->]. intros L1 L2.
  rewrite (logged_inj _ _ _ _ L1 L2). reflexivity.
Qed.

(** ** Further properties of the submitter and the orchestrator *)

Lemma get_reexecution_strategy_cases run inst :
  exists selected inst1 pre,
    get_reexecution_strategy run inst = (Return selected, inst1)
    /\ logged pre inst inst1
    /\ (pre = []
        \/ exists raw,
             tags run !! RETRY_STRATEGY_TAG = Some raw
             /\ selected = None
             /\ pre = [ReportEngineEvent (strategy_error_message raw) run NoEventData]).
Proof.
  unfold get_reexecution_strategy.
  destruct (tags run !! RETRY_STRATEGY_TAG) as [raw|].
  - destruct (members_lookup raw) as [strategy|].
    + exists (Some strategy), inst, []. split; [reflexivity|].
      split; [apply logged_nil | left; reflexivity].
    + eexists None, _, [_]. split; [reflexivity|].
      split; [apply logged_log_call | right; eauto].
  - exists None, inst, []. split; [reflexivity|].
    split; [apply logged_nil | left; reflexivity].
Qed.

(** The calls of [retry_run], one after the other, once the job has been
    resolved. *)
Lemma retry_run_resolved_calls
    (failed_run : DagsterRun) (retry_number : Z)
    (ctx : IWorkspaceProcessContext) (inst : DagsterInstance)
    (job_origin : RemoteJobOrigin) (code_location : CodeLocation)
    (repo : RemoteRepository) (remote_job : RemoteJob) :
  remote_job_origin failed_run = Some job_origin ->
  get_code_location (create_request_context ctx)
    (location_name (code_location_origin (repository_origin job_origin)))
  = Return code_location ->
  has_repository code_location (repository_name (repository_origin job_origin)) = true ->
  get_repository code_location (repository_name (repository_origin job_origin))
  = Return repo ->
  has_job repo (job_name failed_run) = true ->
  get_job code_location
    {| sel_location_name :=
         location_name (code_location_origin (repository_origin job_origin));
       sel_repository_name := repository_name (repository_origin job_origin);
       sel_job_name := job_name failed_run;
       sel_op_selection := op_selection failed_run;
       sel_asset_selection := asset_selection failed_run |}
  = Return remote_job ->
  exists selected inst1,
    get_reexecution_strategy failed_run inst = (Return selected, inst1)
    /\ let request :=
         {| req_parent_run := failed_run;
            req_code_location := code_location;
            req_remote_job := remote_job;
            req_strategy := or_default selected;
            req_extra_tags := {[ RETRY_NUMBER_TAG := str retry_number ]};
            req_use_parent_run_tags := true |} in
       let outcome := retry_run failed_run retry_number ctx inst in
       let announced new_run :=
         [CreateReexecutedRun request;
          ReportEngineEvent "Retrying the run" failed_run
            (EngineEventData_metadata
               [("new run", MetadataValue_dagster_run (run_id new_run))]);
          ReportEngineEvent "Launched as an automatic retry" new_run
            (EngineEventData_metadata
               [("failed run", MetadataValue_dagster_run (run_id failed_run))]);
          SubmitRun (run_id new_run)] in
       match storage_create_reexecuted_run (run_storage ctx) request
               (run_groups inst1) with
       | (Raise e, groups1) =>
           fst outcome = Raise e
           /\ calls (snd outcome) = calls inst1 ++ [CreateReexecutedRun request]
           /\ run_groups (snd outcome) = groups1
       | (Return new_run, groups1) =>
           match storage_submit_run (run_storage ctx) (run_id new_run) groups1 with
           | (Raise e, groups2) =>
               fst outcome = Raise e
               /\ calls (snd outcome) = calls inst1 ++ announced new_run
               /\ run_groups (snd outcome) = groups2
           | (Return _, groups2) =>
               let tagging :=
                 storage_add_run_tags (run_storage ctx) (run_id failed_run)
                   {[ AUTO_RETRY_RUN_ID_TAG := run_id new_run ]} groups2 in
               fst outcome = fst tagging
               /\ calls (snd outcome)
                  = calls inst1 ++ announced new_run
                      ++ [AddRunTags (run_id failed_run)
                            {[ AUTO_RETRY_RUN_ID_TAG := run_id new_run ]}]
               /\ run_groups (snd outcome) = snd tagging
           end
       end.
Proof.
  intros Horigin Hloc Hhas_repo Hrepo Hhas_job Hjob.
  destruct (get_reexecution_strategy_cases failed_run inst)
    as (selected & inst1 & pre & Hsel & _ & _).
  exists selected, inst1. split; [exact Hsel|].
  intros request outcome announced. subst outcome.
  rewrite (retry_run_resolved _ _ _ _ _ _ _ _ Horigin Hloc Hhas_repo Hrepo
             Hhas_job Hjob).
  rewrite (bind_Return _ _ _ _ _ Hsel). fold request.
  unfold bind, create_reexecuted_run, submit_run, add_run_tags, storage_call,
    report_engine_event. simpl run_groups.
  destruct (storage_create_reexecuted_run (run_storage ctx) request (run_groups inst1))
    as [[new_run|e] groups1]; simpl; [|auto].
  destruct (storage_submit_run (run_storage ctx) (run_id new_run) groups1)
    as [[[]|e] groups2]; simpl.
  - destruct (storage_add_run_tags (run_storage ctx) (run_id failed_run)
                {[AUTO_RETRY_RUN_ID_TAG := run_id new_run]} groups2)
      as [result groups3]; simpl.
    rewrite <- !app_assoc. auto.
  - rewrite <- !app_assoc. auto.
Qed.


(** X11. What a retry can call.  Whatever the workspace and the storage
    do, [retry_run] only adds calls to the instance's log, and what it adds
    has one of these shapes: nothing (a resolver raised); one diagnostic on
    the failed run, after which it returns (a soft-fail checkpoint); or,
    after at most one strategy diagnostic, one request for a re-executed
    run of the failed run and then, if the storage raised on it, nothing
    more, and if the storage returned a run, the two cross-linking reports
    and one submission of that very run, possibly followed by one
    auto_retry_run_id tag carrying that run's id, added to the failed run.
    So a retry creates at most one run, submits only the run the storage
    created for it, and tags only the failed run, only after the
    submission, only with the created run's id. *)
Theorem retry_run_call_shapes
    (failed_run : DagsterRun) (retry_number : Z)
    (ctx : IWorkspaceProcessContext) (inst : DagsterInstance) :
  exists new,
    calls (snd (retry_run failed_run retry_number ctx inst)) = calls inst ++ new
    /\ ((new = []
         /\ exists e, retry_run failed_run retry_number ctx inst = (Raise e, inst))
        \/ (exists message,
              new = [ReportEngineEvent message failed_run NoEventData]
              /\ retry_run failed_run retry_number ctx inst
                 = (Return tt, log_call (ReportEngineEvent message failed_run
                                           NoEventData) inst))
        \/ exists pre request,
             (pre = []
              \/ exists raw,
                   pre = [ReportEngineEvent (strategy_error_message raw)
                            failed_run NoEventData])
             /\ req_parent_run request = failed_run
             /\ req_extra_tags request = {[ RETRY_NUMBER_TAG := str retry_number ]}
             /\ req_use_parent_run_tags request = true
             /\ ((exists e,
                    fst (storage_create_reexecuted_run (run_storage ctx) request
                           (run_groups inst)) = Raise e
                    /\ new = pre ++ [CreateReexecutedRun request])
                 \/ exists new_run,
                      fst (storage_create_reexecuted_run (run_storage ctx) request
                             (run_groups inst)) = Return new_run
                      /\ let announced :=
                           [CreateReexecutedRun request;
                            ReportEngineEvent "Retrying the run" failed_run
                              (EngineEventData_metadata
                                 [("new run",
                                   MetadataValue_dagster_run (run_id new_run))]);
                            ReportEngineEvent "Launched as an automatic retry"
                              new_run
                              (EngineEventData_metadata
                                 [("failed run",
                                   MetadataValue_dagster_run (run_id failed_run))]);
                            SubmitRun (run_id new_run)] in
                         new = pre ++ announced
                         \/ new = pre ++ announced
                                    ++ [AddRunTags (run_id failed_run)
                                          {[ AUTO_RETRY_RUN_ID_TAG :=
                                               run_id new_run ]}])).
Proof.
  destruct (remote_job_origin failed_run) as [job_origin|] eqn:Horigin.
  2:{ eexists [_]. split; [|right; left; eexists; split; [reflexivity|]];
        unfold retry_run; rewrite Horigin; reflexivity. }
  destruct (get_code_location (create_request_context ctx)
              (location_name (code_location_origin (repository_origin job_origin))))
    as [code_location|e] eqn:Hloc.
  2:{ assert (E : retry_run failed_run retry_number ctx inst = (Raise e, inst)).
      { unfold retry_run. rewrite Horigin. unfold bind, lift. rewrite Hloc. reflexivity. }
      exists []. rewrite E, app_nil_r. split; [reflexivity | left; eauto]. }
  destruct (has_repository code_location
              (repository_name (repository_origin job_origin))) eqn:Hhas_repo.
  2:{ eexists [_]. split; [|right; left; eexists; split; [reflexivity|]];
        unfold retry_run; rewrite Horigin; unfold bind, lift;
        rewrite Hloc, Hhas_repo; reflexivity. }
  destruct (get_repository code_location
              (repository_name (repository_origin job_origin)))
    as [repo|e] eqn:Hrepo.
  2:{ assert (E : retry_run failed_run retry_number ctx inst = (Raise e, inst)).
      { unfold retry_run. rewrite Horigin. unfold bind, lift.
        rewrite Hloc, Hhas_repo. simpl negb. cbv iota. rewrite Hrepo. reflexivity. }
      exists []. rewrite E, app_nil_r. split; [reflexivity | left; eauto]. }
  destruct (has_job repo (job_name failed_run)) eqn:Hhas_job.
  2:{ eexists [_]. split; [|right; left; eexists; split; [reflexivity|]];
        unfold retry_run; rewrite Horigin; unfold bind, lift;
        rewrite Hloc, Hhas_repo; simpl negb; cbv iota;
        rewrite Hrepo, Hhas_job; reflexivity. }
  destruct (get_job code_location
              {| sel_location_name :=
                   location_name (code_location_origin (repository_origin job_origin));
                 sel_repository_name := repository_name (repository_origin job_origin);
                 sel_job_name := job_name failed_run;
                 sel_op_selection := op_selection failed_run;
                 sel_asset_selection := asset_selection failed_run |})
    as [remote_job|e] eqn:Hjob.
  2:{ assert (E : retry_run failed_run retry_number ctx inst = (Raise e, inst)).
      { unfold retry_run. rewrite Horigin. unfold bind, lift.
        rewrite Hloc, Hhas_repo. simpl negb. cbv iota.
        rewrite Hrepo, Hhas_job. simpl negb. cbv iota. rewrite Hjob. reflexivity. }
      exists []. rewrite E, app_nil_r. split; [reflexivity | left; eauto]. }
  destruct (retry_run_resolved_calls failed_run retry_number ctx inst job_origin
              code_location repo remote_job Horigin Hloc Hhas_repo Hrepo Hhas_job Hjob)
    as (selected & inst1 & Hsel & H).
  destruct (get_reexecution_strategy_cases failed_run inst)
    as (selected' & inst1' & pre & Hsel' & Lpre & Hpre).
  rewrite Hsel in Hsel'. injection Hsel' as <- <-.
  assert (Hcalls1 : calls inst1 = calls inst ++ pre) by apply Lpre.
  assert (Hsame : run_groups inst1 = run_groups inst) by apply Lpre.
  assert (Hpre' : pre = [] \/ exists raw,
             pre = [ReportEngineEvent (strategy_error_message raw) failed_run
                      NoEventData]).
  { destruct Hpre as [->|(raw & _ & _ & ->)]; eauto. }
  cbv zeta in H. rewrite Hsame in H.
  set (request := {| req_parent_run := failed_run;
                     req_strategy := or_default selected |}) in H.
  destruct (storage_create_reexecuted_run (run_storage ctx) request (run_groups inst))
    as [[new_run|e] groups1] eqn:Ecreate.
  - destruct (storage_submit_run (run_storage ctx) (run_id new_run) groups1)
      as [[[]|e] groups2]; destruct H as (_ & Hcalls & _);
      rewrite Hcalls, Hcalls1, <- app_assoc; eexists; (split; [reflexivity|]);
      right; right; exists pre, request; repeat (split; [auto; reflexivity|]);
      right; exists new_run; (split; [rewrite Ecreate; reflexivity|]);
      [right | left]; reflexivity.
  - destruct H as (_ & Hcalls & _).
    rewrite Hcalls, Hcalls1, <- app_assoc. eexists. split; [reflexivity|].
    right. right. exists pre, request. repeat (split; [auto; reflexivity|]).
    left. exists e. split; [rewrite Ecreate|]; reflexivity.
Qed.

(** X12. The first checkpoint is the filter's first pair.  The first
    [next()] on the generator runs the filter over the runs of the records
    with the instance's default budget: when the filter yields nothing for
    that batch the generator stops at once, leaving the instance as the
    filter leaves it (only diagnostics, in particular for an empty batch
    nothing at all); otherwise it suspends holding the first pair the
    filter yields. *)
Theorem first_checkpoint_is_first_yield
    (b : string -> bool) (ctx : IWorkspaceProcessContext)
    (run_records : list RunRecord) (inst : DagsterInstance) :
  exists yielded inst_filtered,
    filter_runs_to_should_retry b (map dagster_run run_records)
      (run_retries_max_retries inst) inst
    = (Return yielded, inst_filtered)
    /\ match yielded with
       | [] =>
           next b ctx (consume_new_runs_for_automatic_reexecution run_records) inst
           = (Return (StopIteration, Exhausted), inst_filtered)
       | (run, retry_number) :: _ =>
           exists st inst',
             next b ctx (consume_new_runs_for_automatic_reexecution run_records) inst
             = (Return (Yielded, Suspended run retry_number st), inst')
       end.
Proof.
  destruct (filter_runs_to_should_retry_spec b (map dagster_run run_records)
              (run_retries_max_retries inst) inst) as (inst_f & E & _).
  eexists _, inst_f. split; [exact E|].
  unfold filter_runs_to_should_retry in E. rewrite filter_loop_resume in E.
  simpl next. unfold advance, filter_next. simpl.
  destruct (filter_resume_spec b (run_retries_max_retries inst)
              (run_retries_retry_on_asset_or_op_failure inst)
              (map dagster_run run_records) inst)
    as (candidate & evs & inst1 & Er & _ & _ & _).
  rewrite (bind_Return _ _ _ _ _ Er) in E. rewrite (bind_Return _ _ _ _ _ Er).
  destruct candidate as [[[run n] st']|].
  - unfold bind in E.
    destruct (filter_loop b _ _ (runs_left st') inst1) as [[rest|e] inst2];
      [|discriminate].
    injection E as <- _. eauto.
  - injection E as <- <-. reflexivity.
Qed.

(** X13. Once a retry run is created, the filter will not ask for another
    (the docstring of the orchestrator).  Take a failed run whose job
    resolves, and a storage that, on creating the re-executed run, records
    in the failed run's group a member whose parent is the failed run, and
    whose submission and tagging leave the groups alone.  Then on the
    instance [retry_run] leaves, whether the submission or the tagging
    raised or not, the filter yields the failed run in no batch and under
    no default budget. *)
Theorem no_second_retry_once_child_recorded
    (b : string -> bool) (failed_run : DagsterRun) (retry_number : Z)
    (ctx : IWorkspaceProcessContext) (inst : DagsterInstance)
    (job_origin : RemoteJobOrigin) (code_location : CodeLocation)
    (repo : RemoteRepository) (remote_job : RemoteJob) :
  remote_job_origin failed_run = Some job_origin ->
  get_code_location (create_request_context ctx)
    (location_name (code_location_origin (repository_origin job_origin)))
  = Return code_location ->
  has_repository code_location (repository_name (repository_origin job_origin)) = true ->
  get_repository code_location (repository_name (repository_origin job_origin))
  = Return repo ->
  has_job repo (job_name failed_run) = true ->
  get_job code_location
    {| sel_location_name :=
         location_name (code_location_origin (repository_origin job_origin));
       sel_repository_name := repository_name (repository_origin job_origin);
       sel_job_name := job_name failed_run;
       sel_op_selection := op_selection failed_run;
       sel_asset_selection := asset_selection failed_run |}
  = Return remote_job ->
  (forall request,
     req_parent_run request = failed_run ->
     exists new_run groups' root members,
       storage_create_reexecuted_run (run_storage ctx) request (run_groups inst)
       = (Return new_run, groups')
       /\ groups' (run_id failed_run) = Some (root, members)
       /\ has_child failed_run members) ->
  (forall id groups, snd (storage_submit_run (run_storage ctx) id groups) = groups) ->
  (forall id new_tags groups,
     snd (storage_add_run_tags (run_storage ctx) id new_tags groups) = groups) ->
  forall runs default_max,
  exists yielded inst',
    filter_runs_to_should_retry b runs default_max
      (snd (retry_run failed_run retry_number ctx inst))
    = (Return yielded, inst')
    /\ forall n, ~ In (failed_run, n) yielded.
Proof.
  intros Horigin Hloc Hhas_repo Hrepo Hhas_job Hjob Hcreate Hsubmit Htag
    runs default_max.
  destruct (retry_run_resolved_calls failed_run retry_number ctx inst job_origin
              code_location repo remote_job Horigin Hloc Hhas_repo Hrepo Hhas_job Hjob)
    as (selected & inst1 & Hsel & H).
  destruct (get_reexecution_strategy_cases failed_run inst)
    as (selected' & inst1' & pre & Hsel' & Lpre & _).
  rewrite Hsel in Hsel'. injection Hsel' as <- <-.
  assert (Hsame : run_groups inst1 = run_groups inst) by apply Lpre.
  cbv zeta in H. rewrite Hsame in H.
  set (request := {| req_parent_run := failed_run;
                     req_strategy := or_default selected |}) in H.
  destruct (Hcreate request eq_refl)
    as (new_run & groups1 & root & members & Ecreate & Hgroup & Hchild).
  rewrite Ecreate in H.
  assert (Hgroups : run_groups (snd (retry_run failed_run retry_number ctx inst))
                    = groups1).
  { pose proof (Hsubmit (run_id new_run) groups1) as Hs.
    destruct (storage_submit_run (run_storage ctx) (run_id new_run) groups1)
      as [[[]|e] groups2]; simpl in Hs; subst groups2.
    - destruct H as (_ & _ & ->). apply Htag.
    - apply H. }
  destruct (excluded_of_generation_None b runs default_max
              (snd (retry_run failed_run retry_number ctx inst)) failed_run)
    as (yielded & inst' & E & Hex & _).
  { apply (generation_has_child _ _ _ root members); [|exact Hchild].
    rewrite Hgroups. exact Hgroup. }
  eauto.
Qed.

(** X14. The filter decides from the persisted groups and the gate default
    alone: on two instances with the same groups and the same
    retry_on_asset_or_op_failure default it yields the same pairs, whatever
    has been logged on them before and whatever their default budgets
    are. *)
Theorem filter_reads_groups_and_gate_only
    (b : string -> bool) (runs : list DagsterRun) (default_max : Z)
    (inst1 inst2 : DagsterInstance) :
  run_groups inst1 = run_groups inst2 ->
  run_retries_retry_on_asset_or_op_failure inst1
  = run_retries_retry_on_asset_or_op_failure inst2 ->
  fst (filter_runs_to_should_retry b runs default_max inst1)
  = fst (filter_runs_to_should_retry b runs default_max inst2).
Proof.
  intros Hgroups Hgate.
  destruct (filter_runs_to_should_retry_spec b runs default_max inst1)
    as (inst1' & E1 & _).
  destruct (filter_runs_to_should_retry_spec b runs default_max inst2)
    as (inst2' & E2 & _).
  rewrite E1, E2, Hgroups, Hgate. reflexivity.
Qed.

End Interpreter.

(** ** The theorems on the sample data *)

Lemma filter_never_yields_non_failure_witness :
  status Samples.run_succeeded <> FAILURE
  /\ exists yielded inst',
       filter_runs_to_should_retry PyInt.int Samples.read_bool
         [Samples.run_A; Samples.run_succeeded] 3 Samples.fresh_instance
       = (Return yielded, inst')
       /\ forall n, ~ In (Samples.run_succeeded, n) yielded.
Proof.
  split; [discriminate|].
  apply (filter_never_yields_non_failure PyInt.int Samples.read_bool
           [Samples.run_A; Samples.run_succeeded] 3 Samples.fresh_instance
           Samples.run_succeeded).
  discriminate.
Defined.

Lemma filter_excludes_already_retried_witness :
  exists yielded inst',
    filter_runs_to_should_retry PyInt.int Samples.read_bool [Samples.run_A] 2
      (Samples.make_instance 2 true Samples.groups_A_B)
    = (Return yielded, inst')
    /\ (forall n, ~ In (Samples.run_A, n) yielded)
    /\ run_groups inst' = Samples.groups_A_B.
Proof.
  destruct (filter_excludes_already_retried PyInt.int Samples.read_bool [Samples.run_A] 2
              (Samples.make_instance 2 true Samples.groups_A_B)
              Samples.run_A "A" [Samples.run_A; Samples.run_B])
    as (yielded & inst' & E & Hex & Hsame & _).
  - reflexivity.
  - exists Samples.run_B. split; [right; left; reflexivity | reflexivity].
  - exists yielded, inst'. auto.
Defined.

Lemma filter_excludes_exhausted_budget_witness :
  exists yielded inst',
    filter_runs_to_should_retry PyInt.int Samples.read_bool [Samples.run_D] 5
      (Samples.make_instance 5 true Samples.groups_C_D)
    = (Return yielded, inst')
    /\ forall n, ~ In (Samples.run_D, n) yielded.
Proof.
  apply (filter_excludes_exhausted_budget PyInt.int Samples.read_bool [Samples.run_D] 5
           (Samples.make_instance 5 true Samples.groups_C_D)
           Samples.run_D "C" [Samples.run_C; Samples.run_D] 1).
  - reflexivity.
  - vm_compute. reflexivity.
  - simpl. lia.
Defined.

Lemma max_retries_resolution_fails_closed_witness :
  (exists yielded evs inst',
     filter_runs_to_should_retry PyInt.int Samples.read_bool
       [Samples.run_malformed; Samples.run_zero] 3 Samples.fresh_instance
     = (Return yielded, inst')
     /\ logged evs Samples.fresh_instance inst'
     /\ In (ReportEngineEvent parse_error_message Samples.run_malformed NoEventData) evs
     /\ forall n, ~ In (Samples.run_malformed, n) yielded)
  /\ (exists yielded inst',
        filter_runs_to_should_retry PyInt.int Samples.read_bool
          [Samples.run_malformed; Samples.run_zero] 3 Samples.fresh_instance
        = (Return yielded, inst')
        /\ forall n, ~ In (Samples.run_zero, n) yielded)
  /\ (exists yielded inst',
        filter_runs_to_should_retry PyInt.int Samples.read_bool
          [Samples.run_untagged] 3 Samples.fresh_instance
        = (Return yielded, inst')
        /\ In (Samples.run_untagged, 1) yielded).
Proof.
  split; [|split].
  - destruct (max_retries_resolution_fails_closed PyInt.int Samples.read_bool
                [Samples.run_malformed; Samples.run_zero] 3 Samples.fresh_instance
                Samples.run_malformed)
      as (yielded & evs & inst' & E & L & Hbad & _).
    + reflexivity.
    + left. reflexivity.
    + exists yielded, evs, inst'. split; [exact E|]. split; [exact L|].
      apply (Hbad "two"); vm_compute; reflexivity.
  - destruct (max_retries_resolution_fails_closed PyInt.int Samples.read_bool
                [Samples.run_malformed; Samples.run_zero] 3 Samples.fresh_instance
                Samples.run_zero)
      as (yielded & evs & inst' & E & _ & _ & _ & Hzero).
    + reflexivity.
    + right. left. reflexivity.
    + exists yielded, inst'. split; [exact E|].
      apply Hzero. vm_compute. reflexivity.
  - destruct (max_retries_resolution_fails_closed PyInt.int Samples.read_bool
                [Samples.run_untagged] 3 Samples.fresh_instance
                Samples.run_untagged)
      as (yielded & evs & inst' & E & _ & _ & Habsent & _).
    + reflexivity.
    + left. reflexivity.
    + exists yielded, inst'. split; [exact E|].
      apply (proj2 (Habsent eq_refl)). split; vm_compute; reflexivity.
Defined.

Lemma yielded_generation_value_witness :
  (exists yielded inst',
     filter_runs_to_should_retry PyInt.int Samples.read_bool [Samples.run_A] 0
       (Samples.make_instance 0 true Samples.groups_A)
     = (Return yielded, inst')
     /\ forall run n, In (run, n) yielded ->
          0 < n
          /\ match Samples.groups_A (run_id run) with
             | Some (_, members) => n = Z.of_nat (length members)
             | None => n = 1
             end)
  /\ exists inst',
       filter_runs_to_should_retry PyInt.int Samples.read_bool [Samples.run_A] 0
         Samples.fresh_instance
       = (Return [(Samples.run_A, 1)], inst').
Proof.
  split.
  - apply (proj1 (yielded_generation_value PyInt.int Samples.read_bool 0
                    (Samples.make_instance 0 true Samples.groups_A))).
    intros id root members. simpl. unfold Samples.groups_A.
    destruct (String.eqb id "A"); [|discriminate].
    intros H. injection H as _ <-. discriminate.
  - apply (proj2 (yielded_generation_value PyInt.int Samples.read_bool 0
                    Samples.fresh_instance) Samples.run_A "2");
      vm_compute; reflexivity.
Defined.

Lemma asset_or_op_failure_gate_witness :
  (exists yielded evs inst',
     filter_runs_to_should_retry PyInt.int Samples.read_bool
       [Samples.run_step_closed; Samples.run_step_open] 0 Samples.fresh_instance
     = (Return yielded, inst')
     /\ logged evs Samples.fresh_instance inst'
     /\ In (ReportEngineEvent not_retrying_message Samples.run_step_closed NoEventData)
          evs
     /\ forall n', ~ In (Samples.run_step_closed, n') yielded)
  /\ (exists yielded inst',
        filter_runs_to_should_retry PyInt.int Samples.read_bool
          [Samples.run_step_closed; Samples.run_step_open] 0 Samples.fresh_instance
        = (Return yielded, inst')
        /\ In (Samples.run_step_open, 1) yielded).
Proof.
  split.
  - destruct (asset_or_op_failure_gate PyInt.int Samples.read_bool
                [Samples.run_step_closed; Samples.run_step_open] 0
                Samples.fresh_instance Samples.run_step_closed 1)
      as (_ & yielded & evs & inst' & E & L & Hclosed & _).
    + left. reflexivity.
    + vm_compute. reflexivity.
    + vm_compute. reflexivity.
    + exists yielded, evs, inst'. split; [exact E|]. split; [exact L|].
      apply Hclosed. vm_compute. reflexivity.
  - destruct (asset_or_op_failure_gate PyInt.int Samples.read_bool
                [Samples.run_step_closed; Samples.run_step_open] 0
                Samples.fresh_instance Samples.run_step_open 1)
      as (_ & yielded & evs & inst' & E & _ & _ & Hopen).
    + right. left. reflexivity.
    + vm_compute. reflexivity.
    + vm_compute. reflexivity.
    + exists yielded, inst'. split; [exact E|].
      apply Hopen. vm_compute. reflexivity.
Defined.

Lemma already_retried_guard_ignores_lineage_tag_witness :
  (exists yielded inst1 inst2,
     filter_runs_to_should_retry PyInt.int Samples.read_bool [Samples.run_A] 0
       (Samples.make_instance 0 true Samples.groups_A_tagged)
     = (Return yielded, inst1)
     /\ filter_runs_to_should_retry PyInt.int Samples.read_bool
          [with_tags Samples.run_A (tags Samples.run_A_tagged)] 0
          (Samples.make_instance 0 true Samples.groups_A_tagged)
        = (Return (map (fun pair =>
                          (with_tags (fst pair) (tags Samples.run_A_tagged), snd pair))
                     yielded), inst2))
  /\ exists inst',
       filter_runs_to_should_retry PyInt.int Samples.read_bool [Samples.run_A_tagged] 0
         (Samples.make_instance 0 true Samples.groups_A_tagged)
       = (Return [(Samples.run_A_tagged, 1)], inst').
Proof.
  split.
  - apply (proj1 (already_retried_guard_ignores_lineage_tag PyInt.int Samples.read_bool 0
                    (Samples.make_instance 0 true Samples.groups_A_tagged)
                    Samples.run_A)).
    intros key Hkey. unfold Samples.run_A_tagged, Samples.run_A. simpl.
    destruct (decide (key = MAX_RETRIES_TAG)) as [->|Hother].
    + rewrite lookup_insert_eq, lookup_singleton_eq. reflexivity.
    + rewrite lookup_insert_ne by congruence.
      rewrite !lookup_singleton_ne by congruence. reflexivity.
  - apply (proj2 (already_retried_guard_ignores_lineage_tag PyInt.int Samples.read_bool 0
                    (Samples.make_instance 0 true Samples.groups_A_tagged)
                    Samples.run_A_tagged) "B" "A" [Samples.run_A_tagged] 2);
      try (vm_compute; reflexivity).
    + discriminate.
    + intros (run_ & [<- | []] & Hparent). discriminate.
Defined.

Lemma strategy_selection_fails_soft_witness :
  get_reexecution_strategy Samples.run_P Samples.fresh_instance
  = (Return None, Samples.fresh_instance)
  /\ get_reexecution_strategy Samples.run_bogus Samples.fresh_instance
     = (Return None,
        log_call (ReportEngineEvent (strategy_error_message "BOGUS")
                    Samples.run_bogus NoEventData) Samples.fresh_instance)
  /\ get_reexecution_strategy Samples.run_all_steps Samples.fresh_instance
     = (Return (Some ALL_STEPS), Samples.fresh_instance)
  /\ exists selected inst1 request later,
       get_reexecution_strategy Samples.run_bogus Samples.fresh_instance
       = (Return selected, inst1)
       /\ calls (snd (retry_run Samples.run_bogus 1 Samples.context_prod
                        Samples.fresh_instance))
          = calls inst1 ++ CreateReexecutedRun request :: later
       /\ req_parent_run request = Samples.run_bogus
       /\ req_strategy request = or_default selected
       /\ (selected = None -> req_strategy request = FROM_FAILURE).
Proof.
  split; [|split; [|split]].
  - apply (proj1 (strategy_selection_fails_soft Samples.run_P Samples.fresh_instance)).
    vm_compute. reflexivity.
  - apply (proj1 (proj2 (strategy_selection_fails_soft Samples.run_bogus
                           Samples.fresh_instance)) "BOGUS").
    + vm_compute. reflexivity.
    + intros strategy [[=]|[[=]|[]]].
  - apply (proj1 (proj2 (proj2 (strategy_selection_fails_soft Samples.run_all_steps
                                  Samples.fresh_instance))) "ALL_STEPS" ALL_STEPS).
    + vm_compute. reflexivity.
    + right. left. reflexivity.
  - apply (proj2 (proj2 (proj2 (strategy_selection_fails_soft Samples.run_bogus
                                  Samples.fresh_instance)))
             1 Samples.context_prod Samples.origin_prod Samples.location_prod
             Samples.repo_prod
             {| handle_of :=
                  {| sel_location_name := "prod"; sel_repository_name := "repo";
                     sel_job_name := "nightly"; sel_op_selection := None;
                     sel_asset_selection := None |};
                handle_id := "nightly" |});
      reflexivity.
Defined.

Lemma submitter_soft_fail_checkpoints_witness :
  retry_run Samples.run_A 1 Samples.context_prod Samples.fresh_instance
  = (Return tt,
     log_call (ReportEngineEvent
                 "Run does not have an external job origin, unable to retry the run."
                 Samples.run_A NoEventData) Samples.fresh_instance)
  /\ fst (retry_run Samples.run_repo_gone 1 Samples.context_prod
            Samples.fresh_instance) = Return tt
  /\ fst (retry_run Samples.run_job_gone 1 Samples.context_prod
            Samples.fresh_instance) = Return tt
  /\ submit_isolated Samples.context_empty Samples.run_P 1 Samples.fresh_instance
     = (Return tt,
        log_call (ReportEngineEvent "Failed to retry run" Samples.run_P
                    (EngineEventData_error
                       (on_exception (Samples.location_not_found "prod"))))
          Samples.fresh_instance).
Proof.
  split; [|split; [|split]].
  - apply (proj1 (submitter_soft_fail_checkpoints Samples.run_A 1
                    Samples.context_prod Samples.fresh_instance)).
    reflexivity.
  - rewrite (proj1 (proj2 (submitter_soft_fail_checkpoints Samples.run_repo_gone 1
                             Samples.context_prod Samples.fresh_instance))
               _ Samples.location_prod eq_refl eq_refl eq_refl).
    reflexivity.
  - rewrite (proj1 (proj2 (proj2 (submitter_soft_fail_checkpoints
                                    Samples.run_job_gone 1 Samples.context_prod
                                    Samples.fresh_instance)))
               _ Samples.location_prod Samples.repo_prod
               eq_refl eq_refl eq_refl eq_refl eq_refl).
    reflexivity.
  - apply (proj2 (proj2 (proj2 (submitter_soft_fail_checkpoints Samples.run_P 1
                                  Samples.context_empty Samples.fresh_instance)))
             Samples.origin_prod (Samples.location_not_found "prod")).
    + reflexivity.
    + reflexivity.
Defined.

(** A sweep over two failed runs with a storage whose submission raises:
    two checkpoints, no exception, and after the failure reported on the
    first run the second is processed in full. *)
Example sweep_with_failing_submission :
  let outcome :=
    exhaust PyInt.int Samples.read_bool Samples.context_submit_raises 3
      (consume_new_runs_for_automatic_reexecution
         [{| dagster_run := Samples.run_P |}; {| dagster_run := Samples.run_bogus |}])
      Samples.fresh_instance in
  fst outcome = Return (Some 2%nat)
  /\ map (fun c => match c with
                   | ReportEngineEvent message run _ => (message, run_id run)
                   | CreateReexecutedRun request =>
                       ("create_reexecuted_run", run_id (req_parent_run request))
                   | SubmitRun id => ("submit_run", id)
                   | AddRunTags id _ => ("add_run_tags", id)
                   end) (calls (snd outcome))
     = [("create_reexecuted_run", "P"); ("Retrying the run", "P");
        ("Launched as an automatic retry", "P-retry"); ("submit_run", "P-retry");
        ("Failed to retry run", "P");
        (strategy_error_message "BOGUS", "Q");
        ("create_reexecuted_run", "Q"); ("Retrying the run", "Q");
        ("Launched as an automatic retry", "Q-retry"); ("submit_run", "Q-retry");
        ("Failed to retry run", "Q")].
Proof. vm_compute. split; reflexivity. Qed.

(** The scenario of the spec: after A's retry has been submitted by a
    storage that records the child in A's group, filtering A again yields
    nothing. *)
Example refilter_after_retry :
  let after :=
    snd (retry_run Samples.run_P 1 Samples.context_prod Samples.fresh_instance) in
  fst (filter_runs_to_should_retry PyInt.int Samples.read_bool [Samples.run_P] 0
         Samples.fresh_instance) = Return [(Samples.run_P, 1)]
  /\ fst (filter_runs_to_should_retry PyInt.int Samples.read_bool [Samples.run_P] 0 after)
     = Return [].
Proof. vm_compute. split; reflexivity. Qed.

Lemma gate_only_for_step_failures_witness :
  exists yielded evs inst',
    filter_runs_to_should_retry PyInt.int Samples.read_bool
      [Samples.run_step_closed; Samples.run_A] 0
      (Samples.make_instance 0 false Samples.no_groups)
    = (Return yielded, inst')
    /\ logged evs (Samples.make_instance 0 false Samples.no_groups) inst'
    /\ (forall n, In (Samples.run_A, n) yielded
                  <-> fst (get_retry_number PyInt.int 0 Samples.run_A
                             (Samples.make_instance 0 false Samples.no_groups))
                      = Return (Some n))
    /\ ~ In (ReportEngineEvent not_retrying_message Samples.run_A NoEventData) evs.
Proof.
  apply (gate_only_for_step_failures PyInt.int Samples.read_bool
           [Samples.run_step_closed; Samples.run_A] 0
           (Samples.make_instance 0 false Samples.no_groups) Samples.run_A).
  - right. left. reflexivity.
  - vm_compute. discriminate.
Defined.

Lemma max_retries_tag_overrides_default_witness :
  filter_runs_to_should_retry PyInt.int Samples.read_bool
    [Samples.run_A; Samples.run_malformed] 0 Samples.fresh_instance
  = filter_runs_to_should_retry PyInt.int Samples.read_bool
      [Samples.run_A; Samples.run_malformed] 7 Samples.fresh_instance.
Proof.
  apply (max_retries_tag_overrides_default PyInt.int Samples.read_bool
           [Samples.run_A; Samples.run_malformed] Samples.fresh_instance 0 7).
  intros run [<- | [<- | []]]; vm_compute; eauto.
Defined.


Lemma no_second_retry_once_child_recorded_witness :
  exists yielded inst',
    filter_runs_to_should_retry PyInt.int Samples.read_bool [Samples.run_P; Samples.run_P] 3
      (snd (retry_run Samples.run_P 1 Samples.context_submit_raises
              Samples.fresh_instance))
    = (Return yielded, inst')
    /\ forall n, ~ In (Samples.run_P, n) yielded.
Proof.
  apply (no_second_retry_once_child_recorded PyInt.int Samples.read_bool Samples.run_P 1
           Samples.context_submit_raises Samples.fresh_instance
           Samples.origin_prod Samples.location_prod Samples.repo_prod
           {| handle_of :=
                {| sel_location_name := "prod"; sel_repository_name := "repo";
                   sel_job_name := "nightly"; sel_op_selection := None;
                   sel_asset_selection := None |};
              handle_id := "nightly" |}
           eq_refl eq_refl eq_refl eq_refl eq_refl eq_refl).
  - intros request Hparent.
    exists (Samples.retry_of request),
      (Samples.add_to_group request Samples.no_groups),
      "P", [Samples.run_P; Samples.retry_of request].
    split; [reflexivity|]. split.
    + unfold Samples.add_to_group. rewrite Hparent. reflexivity.
    + exists (Samples.retry_of request). split; [right; left; reflexivity|].
      unfold Samples.retry_of. rewrite Hparent. reflexivity.
  - reflexivity.
  - reflexivity.
Defined.

Lemma filter_reads_groups_and_gate_only_witness :
  fst (filter_runs_to_should_retry PyInt.int Samples.read_bool
         [Samples.run_A; Samples.run_malformed] 2 Samples.fresh_instance)
  = fst (filter_runs_to_should_retry PyInt.int Samples.read_bool
           [Samples.run_A; Samples.run_malformed] 2
           (log_call (SubmitRun "earlier")
              (Samples.make_instance 9 true Samples.no_groups))).
Proof.
  apply (filter_reads_groups_and_gate_only PyInt.int Samples.read_bool
           [Samples.run_A; Samples.run_malformed] 2 Samples.fresh_instance
           (log_call (SubmitRun "earlier")
              (Samples.make_instance 9 true Samples.no_groups)));
    reflexivity.
Defined.

